(** * aries-framework-go: key resolver adapter, linked data proofs,
      DID destinations and zero-preserving timestamps

    A shallow embedding of
    - [pkg/doc/verifiable/linked_data_proof.go] (key resolver adapter,
      [addLinkedDataProof], [checkLinkedDataProof]),
    - the [util] time type [TimeWithTrailingZeroMsec],
    - the destination and recipient-key operations exercised by
      [pkg/didcomm/common/service/destination_test.go].

    Go values are modelled as follows.  A Go [string] and a [[]byte] are
    a [string] (a sequence of bytes).  A Go [error] is an [error] value
    carrying its message and, for [%w], the error it wraps.  A Go result
    pair [(v, err)] is a [result].  A callback that may perform I/O is a
    function threading an explicit world. *)

From Stdlib Require Import String Ascii List Bool Arith ZArith Lia.
Import ListNotations.
Open Scope list_scope.
Open Scope string_scope.

(** ** Go runtime: errors, results, [strings], [fmt] *)

Module Go.

(** [errors.New] and [fmt.Errorf] without [%w] build an [errorString];
    [fmt.Errorf] with [%w] builds a [wrapError] that remembers its cause. *)
Inductive error : Type :=
| errorString (msg : string)
| wrapError (msg : string) (err : error).

(** The [Error()] method. *)
Definition Error (e : error) : string :=
  match e with
  | errorString m => m
  | wrapError m _ => m
  end.

(** [errors.Unwrap]. *)
Definition Unwrap (e : error) : option error :=
  match e with
  | errorString _ => None
  | wrapError _ c => Some c
  end.

(** [fmt.Errorf(prefix + "%w", err)]. *)
Definition Errorf_w (prefix : string) (err : error) : error :=
  wrapError (prefix ++ Error err) err.

(** A Go return pair [(value, error)] where exactly one side is set. *)
Inductive result (A : Type) : Type :=
| Ok (a : A)
| Err (e : error).
Arguments Ok {A} a.
Arguments Err {A} e.

(** [strings.Split(s, sep)] for a one-byte separator: the substrings
    between the separators, in order; one more than the number of
    separators, empty substrings included. *)
Fixpoint Split (s : string) (sep : ascii) : list string :=
  match s with
  | EmptyString => [EmptyString]
  | String c rest =>
      if Ascii.eqb c sep then EmptyString :: Split rest sep
      else match Split rest sep with
           | [] => [String c EmptyString]
           | part :: parts => String c part :: parts
           end
  end.

(** [strings.Count(s, sep)] for a one-byte separator. *)
Fixpoint Count (s : string) (sep : ascii) : nat :=
  match s with
  | EmptyString => 0
  | String c rest => (if Ascii.eqb c sep then 1 else 0) + Count rest sep
  end.

(** [strings.Join]. *)
Fixpoint Join (parts : list string) (sep : string) : string :=
  match parts with
  | [] => ""
  | [p] => p
  | p :: ps => p ++ sep ++ Join ps sep
  end.

(** The verb [%s] applied to a [[]string]: the elements between square
    brackets, separated by one space. *)
Definition Sprint_strings (parts : list string) : string :=
  "[" ++ Join parts " " ++ "]".

(** [strings.HasPrefix]. *)
Fixpoint HasPrefix (s prefix : string) {struct prefix} : bool :=
  match prefix, s with
  | EmptyString, _ => true
  | String p ps, String c cs => Ascii.eqb c p && HasPrefix cs ps
  | String _ _, EmptyString => false
  end.

(** [strings.Contains]. *)
Fixpoint Contains (s substr : string) : bool :=
  HasPrefix s substr ||
  match s with
  | EmptyString => false
  | String _ rest => Contains rest substr
  end.

(** [strings.ReplaceAll(s, old, new)] for one-byte [old] and [new]. *)
Fixpoint ReplaceAll (s : string) (old new : ascii) : string :=
  match s with
  | EmptyString => EmptyString
  | String c rest =>
      String (if Ascii.eqb c old then new else c) (ReplaceAll rest old new)
  end.

End Go.
Import Go.

(** ** The key resolver adapter ([linked_data_proof.go]) *)

Module Verifiable.

Definition resolveIDParts : nat := 2.

Definition hash : ascii := "#"%char.

Section Adapter.

(** [verifier.PublicKey] is declared in another package; the adapter
    only passes it through. *)
Variable PublicKey : Type.

(** What the fetcher may read or change when it runs. *)
Variable World : Type.

(** [PublicKeyFetcher]: a function of [issuerID] and [keyID] returning a
    public key or an error. *)
Definition PublicKeyFetcher : Type :=
  string -> string -> World -> result PublicKey * World.

Record keyResolverAdapter : Type := {
  pubKeyFetcher : PublicKeyFetcher
}.

(** The error of line 63: [fmt.Errorf("wrong id %s to resolve", idSplit)]. *)
Definition wrongID (idSplit : list string) : error :=
  errorString ("wrong id " ++ Sprint_strings idSplit ++ " to resolve").

(** [keyResolverAdapter.Resolve]. *)
Definition Resolve (k : keyResolverAdapter) (id : string) (w : World)
  : result PublicKey * World :=
  let idSplit := Split id hash in
  if negb (Nat.eqb (List.length idSplit) resolveIDParts) then (Err (wrongID idSplit), w)
  else
    match pubKeyFetcher k (nth 0 idSplit "") ("#" ++ nth 1 idSplit "") w with
    | (Err err, w') => (Err err, w')
    | (Ok pubKey, w') => (Ok pubKey, w')
    end.

End Adapter.

Arguments pubKeyFetcher {PublicKey World} k.
Arguments Resolve {PublicKey World} k id w.
Arguments Build_keyResolverAdapter {PublicKey World} _.

(** *** Observing the calls made to a fetcher *)

(** One invocation of the fetcher: its two arguments. *)
Definition Call : Type := (string * string)%type.

(** [recording f] behaves as [f] and appends every invocation to a log
    kept next to the world. *)
Definition recording {PublicKey World : Type}
    (f : PublicKeyFetcher PublicKey World)
  : PublicKeyFetcher PublicKey (World * list Call) :=
  fun issuerID keyID wl =>
    let '(r, w') := f issuerID keyID (fst wl) in
    (r, (w', (snd wl ++ [(issuerID, keyID)])%list)).

(** The fetcher calls [Resolve] makes on [id], in order. *)
Definition fetchCalls {PublicKey World : Type}
    (f : PublicKeyFetcher PublicKey World) (id : string) (w : World)
  : list Call :=
  snd (snd (Resolve (Build_keyResolverAdapter (recording f)) id (w, []))).

(** [Resolve] rejects [id] as malformed: it returns the "wrong id" error
    of line 63 and the fetcher has not been called. *)
Definition MalformedIdentifier {PublicKey World : Type}
    (f : PublicKeyFetcher PublicKey World) (id : string) (w : World) : Prop :=
  Resolve (Build_keyResolverAdapter f) id w = (Err (wrongID (Split id hash)), w)
  /\ fetchCalls f id w = [].

(** The reading of the specification: the identifier splits on ['#'] into
    exactly two parts, owner and fragment, both non-empty. *)
Definition splitsIntoTwoNonEmpty (id : string) : Prop :=
  exists owner fragment,
    Split id hash = [owner; fragment] /\ owner <> "" /\ fragment <> "".

End Verifiable.

(** ** Go's [time] package, as far as the timestamp type uses it

    [time.Time] is modelled by the civil fields it shows in its own
    location together with the offset of that location.  Parsing and
    formatting are modelled for the layouts the program passes:
    [time.RFC3339] for parsing, and for formatting the layouts made of
    the verbs [2006 01 02 15 04 05 .000 .999 Z07:00] and literal text
    (this covers [time.RFC3339Nano] and the layouts built by
    [getTrailingZeroIncludedFormat]). *)

Module GoTime.

Local Open Scope nat_scope.

Record Time : Type := {
  Year : N;
  Month : N;
  Day : N;
  Hour : N;
  Minute : N;
  Second : N;
  Nanosecond : N;
  (** seconds east of UTC of the time's location *)
  ZoneOffset : Z
}.

Definition RFC3339 : string := "2006-01-02T15:04:05Z07:00".
Definition RFC3339Nano : string := "2006-01-02T15:04:05.999999999Z07:00".

(** *** Decimal digits *)

Definition isDigit (c : ascii) : bool :=
  (48 <=? N_of_ascii c)%N && (N_of_ascii c <=? 57)%N.

Definition digitVal (c : ascii) : N := (N_of_ascii c - 48)%N.

Definition digitChar (d : N) : ascii := ascii_of_N (48 + d).

(** The [width] low decimal digits of [x], most significant first. *)
Fixpoint fixedDigits (width : nat) (x : N) : string :=
  match width with
  | 0 => ""
  | S w => fixedDigits w (x / 10)%N ++ String (digitChar (x mod 10)%N) ""
  end.

Fixpoint numDigitsAux (fuel : nat) (x : N) : nat :=
  match fuel with
  | 0 => 1
  | S f => if (x <? 10)%N then 1 else S (numDigitsAux f (x / 10)%N)
  end.

(** The length of the decimal form of [x]; a number has no more
    decimal digits than binary ones. *)
Definition numDigits (x : N) : nat := numDigitsAux (N.size_nat x) x.

(** [appendInt(b, x, width)] for [x >= 0]: the decimal form of [x],
    padded with leading zeros up to [width]. *)
Definition appendInt (x : N) (width : nat) : string :=
  fixedDigits (Nat.max width (numDigits x)) x.

(** [s[n:]] and [s[:n]] (within bounds). *)
Fixpoint drop (n : nat) (s : string) : string :=
  match n, s with
  | 0, _ => s
  | S k, String _ rest => drop k rest
  | S _, EmptyString => EmptyString
  end.

Fixpoint take (n : nat) (s : string) : string :=
  match n, s with
  | 0, _ => EmptyString
  | S k, String c rest => String c (take k rest)
  | S _, EmptyString => EmptyString
  end.

(** *** Layout verbs *)

Inductive std : Type :=
| stdLongYear          (* 2006 *)
| stdZeroMonth         (* 01 *)
| stdZeroDay           (* 02 *)
| stdHour              (* 15 *)
| stdZeroMinute        (* 04 *)
| stdZeroSecond        (* 05 *)
| stdFracSecond0 (digits : nat)   (* .000, the number of zeros *)
| stdFracSecond9 (digits : nat)   (* .999, the number of nines *)
| stdISO8601ColonTZ.   (* Z07:00 *)

(** The length of the run of [ch] at the head of [s]. *)
Fixpoint runLength (ch : ascii) (s : string) : nat :=
  match s with
  | String c rest => if Ascii.eqb c ch then S (runLength ch rest) else 0
  | EmptyString => 0
  end.

Definition headIsDigit (s : string) : bool :=
  match s with
  | String c _ => isDigit c
  | EmptyString => false
  end.

(** The verb that starts at the head of [layout], with the layout that
    follows it. *)
Definition stdAt (layout : string) : option (std * string) :=
  if HasPrefix layout "2006" then Some (stdLongYear, drop 4 layout)
  else if HasPrefix layout "01" then Some (stdZeroMonth, drop 2 layout)
  else if HasPrefix layout "02" then Some (stdZeroDay, drop 2 layout)
  else if HasPrefix layout "15" then Some (stdHour, drop 2 layout)
  else if HasPrefix layout "04" then Some (stdZeroMinute, drop 2 layout)
  else if HasPrefix layout "05" then Some (stdZeroSecond, drop 2 layout)
  else if HasPrefix layout "Z07:00" then Some (stdISO8601ColonTZ, drop 6 layout)
  else
    match layout with
    | String dot (String ch rest) =>
        if Ascii.eqb dot "." && (Ascii.eqb ch "0" || Ascii.eqb ch "9") then
          let j := runLength ch (String ch rest) in
          (* the run of digits must end here *)
          if headIsDigit (drop j (String ch rest)) then None
          else Some (if Ascii.eqb ch "0" then stdFracSecond0 j else stdFracSecond9 j,
                     drop j (String ch rest))
        else None
    | _ => None
    end.

(** [nextStdChunk]: the literal text before the first verb of the
    layout, the verb if there is one, and the layout after it. *)
Fixpoint nextStdChunk (layout : string) : string * option std * string :=
  match layout with
  | EmptyString => ("", None, "")
  | String c rest =>
      match stdAt layout with
      | Some (code, suffix) => ("", Some code, suffix)
      | None =>
          let '(prefix, code, suffix) := nextStdChunk rest in
          (String c prefix, code, suffix)
      end
  end.

(** *** Formatting *)

(** Removes the zeros at the end of [s]. *)
Fixpoint trimZeros (s : string) : string :=
  match s with
  | EmptyString => EmptyString
  | String c rest =>
      match trimZeros rest with
      | EmptyString => if Ascii.eqb c "0" then EmptyString else String c EmptyString
      | t => String c t
      end
  end.

(** [appendNano]: the fractional second for a [.000] verb ([trim] is
    false) or a [.999] verb ([trim] is true) of [n] digits.  At most
    nine digits are ever written. *)
Definition appendNano (nanosec : N) (n : nat) (trim : bool) : string :=
  if trim && ((n =? 0)%nat || (nanosec =? 0)%N) then ""
  else
    let digits := appendInt nanosec 9 in
    let digits := if (n <? 9)%nat then take n digits else digits in
    let digits := if trim then trimZeros digits else digits in
    match digits with
    | EmptyString => ""
    | _ => String "." digits
    end.

(** The zone for the verb [Z07:00]. *)
Definition appendZone (offset : Z) : string :=
  if (offset =? 0)%Z then "Z"
  else
    let zone := (Z.quot offset 60)%Z in
    let sign := if (zone <? 0)%Z then "-" else "+" in
    let zone := Z.to_N (Z.abs zone) in
    sign ++ appendInt (zone / 60)%N 2 ++ ":" ++ appendInt (zone mod 60)%N 2.

Definition appendStd (t : Time) (code : std) : string :=
  match code with
  | stdLongYear => appendInt (Year t) 4
  | stdZeroMonth => appendInt (Month t) 2
  | stdZeroDay => appendInt (Day t) 2
  | stdHour => appendInt (Hour t) 2
  | stdZeroMinute => appendInt (Minute t) 2
  | stdZeroSecond => appendInt (Second t) 2
  | stdFracSecond0 n => appendNano (Nanosecond t) n false
  | stdFracSecond9 n => appendNano (Nanosecond t) n true
  | stdISO8601ColonTZ => appendZone (ZoneOffset t)
  end.

(** The loop of [Time.AppendFormat]; every turn consumes one verb of
    the layout, so [fuel] above the length of the layout is enough. *)
Fixpoint appendFormat (fuel : nat) (t : Time) (layout : string) : string :=
  match fuel with
  | 0 => ""
  | S fuel' =>
      let '(prefix, code, suffix) := nextStdChunk layout in
      prefix ++
      match code with
      | None => ""
      | Some c => appendStd t c ++ appendFormat fuel' t suffix
      end
  end.

(** [t.AppendFormat(nil, layout)]. *)
Definition AppendFormat (t : Time) (layout : string) : string :=
  appendFormat (S (String.length layout)) t layout.

(** The double quote. *)
Definition quote : string := String (ascii_of_nat 34) "".

(** What a [Time] that [MarshalJSON] accepts holds: a year of four
    digits, the other fields of the date and of the time of day of two
    digits at most, less than a second of nanoseconds, and an offset
    under 24 hours. *)
Definition inRange (t : Time) : Prop :=
  (Year t < 10000 /\ Month t < 100 /\ Day t < 100 /\ Hour t < 100 /\
   Minute t < 100 /\ Second t < 100 /\ Nanosecond t < 1000000000)%N /\
  (Z.abs (ZoneOffset t) < 24 * 3600)%Z.

(** [Time.MarshalJSON]: the quoted [RFC3339Nano] form; an error when the
    year needs more than four digits or the zone hour is above 23. *)
Definition MarshalJSON (t : Time) : result string :=
  if (10000 <=? Year t)%N then
    Err (errorString "Time.MarshalJSON: year outside of range [0,9999]")
  else if (24 * 3600 <=? Z.abs (ZoneOffset t))%Z then
    Err (errorString "Time.MarshalJSON: timezone hour outside of range [0,23]")
  else Ok (quote ++ AppendFormat t RFC3339Nano ++ quote).

(** *** Parsing with the layout [RFC3339]

    [time.Parse(time.RFC3339, value)] walks the layout
    [2006-01-02T15:04:05Z07:00]; the steps below are that walk.  The
    text of the error is abbreviated to the value that failed. *)

Definition ParseError (value : string) : error :=
  errorString ("parsing time " ++ quote ++ value ++ quote).

(** [getnum]: one or two digits; exactly two when [fixed]. *)
Definition getnum (s : string) (fixed : bool) : option (N * string) :=
  match s with
  | String c0 r0 =>
      if isDigit c0 then
        match r0 with
        | String c1 r1 =>
            if isDigit c1 then Some ((digitVal c0 * 10 + digitVal c1)%N, r1)
            else if fixed then None else Some (digitVal c0, r0)
        | EmptyString => if fixed then None else Some (digitVal c0, r0)
        end
      else None
  | EmptyString => None
  end.

(** The verb [2006]: four bytes, all of them digits. *)
Definition getYear (s : string) : option (N * string) :=
  match s with
  | String c0 (String c1 (String c2 (String c3 rest))) =>
      if isDigit c0 && isDigit c1 && isDigit c2 && isDigit c3 then
        Some ((((digitVal c0 * 10 + digitVal c1) * 10 + digitVal c2) * 10
               + digitVal c3)%N, rest)
      else None
  | _ => None
  end.

(** Literal text of the layout: the value must start with the byte. *)
Definition skip (s : string) (c : ascii) : option string :=
  match s with
  | String c' rest => if Ascii.eqb c' c then Some rest else None
  | EmptyString => None
  end.

Definition commaOrPeriod (c : ascii) : bool :=
  Ascii.eqb c "." || Ascii.eqb c ",".

(** The value of a string of digits. *)
Fixpoint digitsValue (acc : N) (s : string) : N :=
  match s with
  | String c rest => digitsValue (acc * 10 + digitVal c)%N rest
  | EmptyString => acc
  end.

(** [parseNanoseconds] on the digits that follow the separator: at most
    nine digits count, scaled to nanoseconds. *)
Definition parseNanoseconds (digits : string) : N :=
  let digits := take 9 digits in
  (digitsValue 0 digits * 10 ^ N.of_nat (9 - String.length digits))%N.

(** The length of the run of digits at the head of [s]. *)
Fixpoint runDigits (s : string) : nat :=
  match s with
  | String c rest => if isDigit c then S (runDigits rest) else 0
  | EmptyString => 0
  end.

(** A fractional second in the value although the layout has none: a
    separator and at least one digit; all the digits that follow are
    consumed. *)
Definition getFraction (s : string) : N * string :=
  match s with
  | String sep (String c rest) =>
      if commaOrPeriod sep && isDigit c then
        let n := runDigits (String c rest) in
        (parseNanoseconds (take n (String c rest)), drop n (String c rest))
      else (0%N, s)
  | _ => (0%N, s)
  end.

Definition isLeap (year : N) : bool :=
  ((year mod 4 =? 0) && (negb (year mod 100 =? 0) || (year mod 400 =? 0)))%N.

Definition daysIn (month year : N) : N :=
  (if month =? 2 then (if isLeap year then 29 else 28)
   else if (month =? 4) || (month =? 6) || (month =? 9) || (month =? 11)
   then 30 else 31)%N.

(** The verb [Z07:00]: a [Z], or a sign, two digits, a colon and two
    digits; offsets up to 24 hours and 60 minutes are let through. *)
Definition getZone (s : string) : option (Z * string) :=
  match s with
  | String "Z" rest => Some (0%Z, rest)
  | String sign (String h0 (String h1 (String colon (String m0 (String m1 rest))))) =>
      if negb (Ascii.eqb colon ":") then None
      else
        match getnum (String h0 (String h1 "")) true,
              getnum (String m0 (String m1 "")) true with
        | Some (hr, _), Some (mm, _) =>
            if (24 <? hr)%N || (60 <? mm)%N then None
            else
              let zoneOffset := Z.of_N ((hr * 60 + mm) * 60) in
              if Ascii.eqb sign "+" then Some (zoneOffset, rest)
              else if Ascii.eqb sign "-" then Some ((- zoneOffset)%Z, rest)
              else None
        | _, _ => None
        end
  | _ => None
  end.

Definition bind {A B} (o : option A) (k : A -> option B) : option B :=
  match o with
  | Some a => k a
  | None => None
  end.

Notation "' p <- e ;; k" := (bind e (fun p => k))
  (at level 61, p pattern, e at next level, right associativity).

Definition guard (b : bool) : option unit := if b then Some tt else None.

Definition parseRFC3339 (value : string) : option Time :=
  '(year, value) <- getYear value ;;
  'value <- skip value "-" ;;
  '(month, value) <- getnum value true ;;
  '_ <- guard ((1 <=? month)%N && (month <=? 12)%N) ;;
  'value <- skip value "-" ;;
  '(day, value) <- getnum value true ;;
  'value <- skip value "T" ;;
  '(hour, value) <- getnum value false ;;
  '_ <- guard (hour <? 24)%N ;;
  'value <- skip value ":" ;;
  '(min, value) <- getnum value true ;;
  '_ <- guard (min <? 60)%N ;;
  'value <- skip value ":" ;;
  '(sec, value) <- getnum value true ;;
  '_ <- guard (sec <? 60)%N ;;
  let '(nsec, value) := getFraction value in
  '(zoneOffset, value) <- getZone value ;;
  (* nothing may follow the zone *)
  '_ <- guard (String.eqb value "") ;;
  (* the day is checked against the month once everything is read *)
  '_ <- guard ((1 <=? day)%N && (day <=? daysIn month year)%N) ;;
  Some {| Year := year; Month := month; Day := day;
          Hour := hour; Minute := min; Second := sec;
          Nanosecond := nsec; ZoneOffset := zoneOffset |}.

(** [time.Parse(time.RFC3339, value)]. *)
Definition Parse (value : string) : result Time :=
  match parseRFC3339 value with
  | Some t => Ok t
  | None => Err (ParseError value)
  end.

(** *** [Time.UnmarshalJSON] *)

(** The zero [Time]: January 1 of year 1, 00:00:00 UTC. *)
Definition zeroTime : Time :=
  {| Year := 1; Month := 1; Day := 1; Hour := 0; Minute := 0; Second := 0;
     Nanosecond := 0; ZoneOffset := 0 |}.

(** [s] without its last byte, when that byte is a double quote. *)
Fixpoint dropClosingQuote (s : string) : option string :=
  match s with
  | EmptyString => None
  | String c EmptyString =>
      if Ascii.eqb c (ascii_of_nat 34) then Some EmptyString else None
  | String c rest =>
      match dropClosingQuote rest with
      | Some r => Some (String c r)
      | None => None
      end
  end.

(** [data[1 : len(data)-1]] when [data] has two bytes or more, starts
    with a double quote and ends with one. *)
Definition unquote (data : string) : option string :=
  match data with
  | String c rest =>
      if Ascii.eqb c (ascii_of_nat 34) then dropClosingQuote rest else None
  | EmptyString => None
  end.

(** [Time.UnmarshalJSON] on the receiver [t]: the error returned and
    the receiver afterwards.  [null] and bytes that are not a quoted
    string leave the receiver alone; a string that does not parse leaves
    the zero time in it. *)
Definition UnmarshalJSON (t : Time) (data : string) : option error * Time :=
  if String.eqb data "null" then (None, t)
  else
    match unquote data with
    | None =>
        (Some (errorString "Time.UnmarshalJSON: input is not a JSON string"), t)
    | Some value =>
        match Parse value with
        | Ok t' => (None, t')
        | Err err => (Some err, zeroTime)
        end
    end.

End GoTime.

(** ** [TimeWithTrailingZeroMsec] (package [util]) *)

Module Util.

Import GoTime.
Local Open Scope nat_scope.

(** The embedded [time.Time] and the number of zeros to keep. *)
Record TimeWithTrailingZeroMsec : Type := {
  Time : GoTime.Time;
  trailingZerosMsecCount : Z
}.

(** [NewTime]. *)
Definition NewTime (t : GoTime.Time) : TimeWithTrailingZeroMsec :=
  {| Time := t; trailingZerosMsecCount := 0 |}.

(** [NewTimeWithTrailingZeroMsec]. *)
Definition NewTimeWithTrailingZeroMsec (t : GoTime.Time) (count : Z)
  : TimeWithTrailingZeroMsec :=
  {| Time := t; trailingZerosMsecCount := count |}.

(** The loop [for i := 0; i < tm.trailingZerosMsecCount; i++ { format += "0" }],
    by the number of turns it takes. *)
Fixpoint addZeros (count : nat) (format : string) : string :=
  match count with
  | 0 => format
  | S k => addZeros k (format ++ "0")
  end.

(** [getTrailingZeroIncludedFormat]. *)
Definition getTrailingZeroIncludedFormat (tm : TimeWithTrailingZeroMsec) : string :=
  let format := "2006-01-02T15:04:05." in
  (* the loop takes as many turns as the count says, none when the count
     is negative *)
  let format := addZeros (Z.to_nat (trailingZerosMsecCount tm)) format in
  format ++ "Z07:00".

(** [marshalJSONWithTrailingZeroMsec]. *)
Definition marshalJSONWithTrailingZeroMsec (tm : TimeWithTrailingZeroMsec)
  : result string :=
  let format := getTrailingZeroIncludedFormat tm in
  Ok (quote ++ AppendFormat (Time tm) format ++ quote).

(** [TimeWithTrailingZeroMsec.MarshalJSON]. *)
Definition MarshalJSON (tm : TimeWithTrailingZeroMsec) : result string :=
  match GoTime.MarshalJSON (Time tm) with
  | Err err => Err err
  | Ok timeBytes =>
      if (trailingZerosMsecCount tm =? 0)%Z then Ok timeBytes
      else marshalJSONWithTrailingZeroMsec tm
  end.

(** [GetFormat]. *)
Definition GetFormat (tm : TimeWithTrailingZeroMsec) : string :=
  if (0 <? trailingZerosMsecCount tm)%Z then getTrailingZeroIncludedFormat tm
  else RFC3339Nano.

(** The loop of [keepTrailingZerosMsecFormat] over the bytes that are
    left, with its two local variables; [continue] is the recursive
    call and [break] returns. *)
Fixpoint keepTrailingZerosLoop (timeStr : string) (msecFraction : bool)
    (zerosCount : Z) (tm : TimeWithTrailingZeroMsec)
  : TimeWithTrailingZeroMsec :=
  match timeStr with
  | EmptyString => tm
  | String c rest =>
      if negb msecFraction then
        if Ascii.eqb c "." then keepTrailingZerosLoop rest true zerosCount tm
        else keepTrailingZerosLoop rest msecFraction zerosCount tm
      else if Ascii.eqb c "Z" then
        if (0 <? zerosCount)%Z
        then {| Time := Time tm; trailingZerosMsecCount := zerosCount |}
        else tm
      else if negb (Ascii.eqb c "0") then tm
      else keepTrailingZerosLoop rest msecFraction (zerosCount + 1)%Z tm
  end.

(** [keepTrailingZerosMsecFormat]. *)
Definition keepTrailingZerosMsecFormat (tm : TimeWithTrailingZeroMsec)
    (timeStr : string) : TimeWithTrailingZeroMsec :=
  keepTrailingZerosLoop timeStr false 0 tm.

(** [TimeWithTrailingZeroMsec.UnmarshalJSON] on the receiver [tm]:
    the error returned and the receiver afterwards. *)
Definition UnmarshalJSON (tm : TimeWithTrailingZeroMsec) (data : string)
  : option error * TimeWithTrailingZeroMsec :=
  if String.eqb data "null" then (None, tm)
  else
    match GoTime.UnmarshalJSON (Time tm) data with
    | (Some err, t) =>
        (Some err,
         {| Time := t; trailingZerosMsecCount := trailingZerosMsecCount tm |})
    | (None, t) =>
        (None,
         keepTrailingZerosMsecFormat
           {| Time := t; trailingZerosMsecCount := trailingZerosMsecCount tm |}
           data)
    end.

(** [ParseTimeWithTrailingZeroMsec]. *)
Definition ParseTimeWithTrailingZeroMsec (timeStr : string)
  : result TimeWithTrailingZeroMsec :=
  match GoTime.Parse timeStr with
  | Err err => Err err
  | Ok t =>
      let tWithTrailingZeroMsec := {| Time := t; trailingZerosMsecCount := 0 |} in
      Ok (keepTrailingZerosMsecFormat tWithTrailingZeroMsec timeStr)
  end.

(** [n] bytes ['0']. *)
Fixpoint zeros (n : nat) : string :=
  match n with
  | 0 => ""
  | S k => String "0" (zeros k)
  end.

(** The timestamps of the claim: an RFC 3339 date and time of day in
    fixed-width fields, then a fraction [frac] after a period, then [Z]. *)
Definition timestampZ (year month day hour min sec : N) (frac : string)
  : string :=
  fixedDigits 4 year ++ "-" ++ fixedDigits 2 month ++ "-" ++ fixedDigits 2 day
  ++ "T" ++ fixedDigits 2 hour ++ ":" ++ fixedDigits 2 min ++ ":"
  ++ fixedDigits 2 sec ++ "." ++ frac ++ "Z".

(** The date and the time of day in the fixed-width fields of RFC 3339,
    up to the seconds. *)
Definition dateTime (year month day hour min sec : N) : string :=
  fixedDigits 4 year ++ "-" ++ fixedDigits 2 month ++ "-" ++ fixedDigits 2 day
  ++ "T" ++ fixedDigits 2 hour ++ ":" ++ fixedDigits 2 min ++ ":"
  ++ fixedDigits 2 sec.

(** The fields are those of a date and a time of day that exist. *)
Definition validFields (year month day hour min sec : N) : Prop :=
  (year < 10000 /\ 1 <= month <= 12 /\ 1 <= day <= daysIn month year /\
   hour < 24 /\ min < 60 /\ sec < 60)%N.

(** The string has a fraction made of zeros only and closed by [Z]: its
    first period is followed by one or more ['0'] and then by ['Z']. *)
Definition hasZeroFractionZ (timeStr : string) : Prop :=
  exists before n after,
    Count before "." = 0 /\
    timeStr = before ++ "." ++ zeros (S n) ++ "Z" ++ after.

End Util.

(** ** Linked data proofs ([linked_data_proof.go]) *)

Module LinkedDataProof.

Import Verifiable.

(** [SignatureRepresentation] and its two constants. *)
Inductive SignatureRepresentation : Type :=
| SignatureProofValue
| SignatureJWS.

Section Engine.

Variables PublicKey World : Type.

(** [map[string]interface{}], the parsed JSON-LD document handed to a
    suite; the suites are the only ones to look inside. *)
Variable JSONObject : Type.

(** The type [Proof] of the package, declared outside this file. *)
Variable Proof : Type.

(** [signatureSuite]. *)
Record signatureSuite : Type := {
  GetCanonicalDocument : JSONObject -> result string;
  GetDigest : string -> string;
  Accept : string -> bool;
  CompactProof : bool
}.

(** [VerifierSignatureSuite]. *)
Record VerifierSignatureSuite : Type := {
  verifierBase : signatureSuite;
  Verify : PublicKey -> string -> string -> option error
}.

(** [SignerSignatureSuite]. *)
Record SignerSignatureSuite : Type := {
  signerBase : signatureSuite;
  Sign : string -> result string
}.

(** [LinkedDataProofContext]. *)
Record LinkedDataProofContext : Type := {
  SignatureType : string;
  Suite : SignerSignatureSuite;
  SignatureRepresentationOf : SignatureRepresentation;
  Created : option GoTime.Time;
  VerificationMethod : string
}.

(** [signer.Context], as [mapContext] fills it. *)
Record signerContext : Type := {
  ctxSignatureType : string;
  ctxSignatureRepresentation : SignatureRepresentation;
  ctxCreated : option GoTime.Time;
  ctxVerificationMethod : string
}.

(** [mapContext]. *)
Definition mapContext (context : LinkedDataProofContext) : signerContext :=
  {| ctxSignatureType := SignatureType context;
     ctxSignatureRepresentation := SignatureRepresentationOf context;
     ctxCreated := Created context;
     ctxVerificationMethod := VerificationMethod context |}.

(** The operations of other packages that the two functions call.  They
    are not part of this file and are taken as they come:
    - [signer.New(suite).Sign(context, doc)], which may read the clock
      and the key store;
    - [json.Unmarshal] into [rawProof], giving the raw [proof] member;
    - [decodeProof];
    - [verifier.New(resolver, suite).Verify(doc)], which is handed the
      [Resolve] method of the adapter. *)
Variable documentSigner_Sign :
  SignerSignatureSuite -> signerContext -> string -> World -> result string * World.
Variable json_Unmarshal_rawProof : string -> result string.
Variable decodeProof : string -> result (list Proof).
Variable documentVerifier_Verify :
  (string -> World -> result PublicKey * World) ->
  VerifierSignatureSuite -> string -> World -> option error * World.

(** [checkLinkedDataProof]. *)
Definition checkLinkedDataProof (jsonldBytes : string)
    (suite : VerifierSignatureSuite)
    (pubKeyFetcher : PublicKeyFetcher PublicKey World) (w : World)
  : option error * World :=
  let resolver := Build_keyResolverAdapter pubKeyFetcher in
  match documentVerifier_Verify (Resolve resolver) suite jsonldBytes w with
  | (Some err, w') => (Some (Errorf_w "check linked data proof: " err), w')
  | (None, w') => (None, w')
  end.

(** [addLinkedDataProof]. *)
Definition addLinkedDataProof (context : LinkedDataProofContext)
    (jsonldBytes : string) (w : World) : result (list Proof) * World :=
  match documentSigner_Sign (Suite context) (mapContext context) jsonldBytes w with
  | (Err err, w') => (Err (Errorf_w "add linked data proof: " err), w')
  | (Ok vcWithNewProofBytes, w') =>
      (* Get a proof from json-ld document. *)
      match json_Unmarshal_rawProof vcWithNewProofBytes with
      | Err err => (Err err, w')
      | Ok rProof =>
          match decodeProof rProof with
          | Err err => (Err err, w')
          | Ok proofs => (Ok proofs, w')
          end
      end
  end.

(** The two ways of failing that the specification names.
    [SigningFailed]: the signer, which drives the suite's
    canonicalization, digest and signature, returns the error [cause]. *)
Definition SigningFailed (context : LinkedDataProofContext)
    (jsonldBytes : string) (w : World) (cause : error) : Prop :=
  fst (documentSigner_Sign (Suite context) (mapContext context) jsonldBytes w)
  = Err cause.

(** Reading the [proof] member of a signed document. *)
Definition parseProofs (signed : string) : result (list Proof) :=
  match json_Unmarshal_rawProof signed with
  | Err err => Err err
  | Ok rProof => decodeProof rProof
  end.

(** [MalformedDocument]: the signer returned a document and its [proof]
    member cannot be parsed, with error [err]. *)
Definition MalformedDocument (context : LinkedDataProofContext)
    (jsonldBytes : string) (w : World) (err : error) : Prop :=
  exists signed,
    fst (documentSigner_Sign (Suite context) (mapContext context) jsonldBytes w)
    = Ok signed /\
    parseProofs signed = Err err.

End Engine.

(** *** A small instance, to run the two functions

    Documents are their own parsed form and a proof is a string.  The
    signer hands the document to the suite: canonical form, digest,
    signature; the signature stands for the signed document. *)

Definition plainSigner (suite : SignerSignatureSuite string)
    (context : signerContext) (doc : string) (w : unit)
  : result string * unit :=
  match GetCanonicalDocument string (signerBase string suite) doc with
  | Err err => (Err err, w)
  | Ok canonical =>
      match Sign string suite (GetDigest string (signerBase string suite) canonical) with
      | Err err => (Err err, w)
      | Ok signature => (Ok signature, w)
      end
  end.

Definition plainBase : signatureSuite string :=
  {| GetCanonicalDocument := fun doc => Ok doc;
     GetDigest := fun bytes => bytes;
     Accept := fun _ => true;
     CompactProof := false |}.

(** A suite whose signature fails. *)
Definition failingSuite : SignerSignatureSuite string :=
  {| signerBase := plainBase;
     Sign := fun _ => Err (errorString "signing error") |}.

Definition failingContext : LinkedDataProofContext string :=
  {| SignatureType := "Ed25519Signature2018";
     Suite := failingSuite;
     SignatureRepresentationOf := SignatureProofValue;
     Created := None;
     VerificationMethod := "did:test:abc#keys-1" |}.

End LinkedDataProof.

(** ** DID documents, recipient keys and destinations

    The test file [destination_test.go] calls [did.LookupRecipientKeys],
    [CreateDestination] and [GetDestination]; their code is in other
    files.  They are modelled below from the specification. *)

Module Destinations.

(** Modelled from the spec: the document model of section 3 (the types
    [did.Doc], [did.PublicKey] and [did.Service] are declared outside the
    test file, which only fills them in). *)
Record PublicKey : Type := {
  pkID : string;
  pkType : string;
  pkController : string;
  pkValue : string
}.

(** Modelled from the spec: a service of the document, section 3. *)
Record Service : Type := {
  svcID : string;
  svcType : string;
  svcServiceEndpoint : string;
  svcPriority : Z;
  svcRecipientKeys : list string;
  svcRoutingKeys : list string
}.

(** Modelled from the spec: the DID document, section 3. *)
Record Doc : Type := {
  docID : string;
  docPublicKey : list PublicKey;
  docService : list Service;
  docCreated : option GoTime.Time;
  docUpdated : option GoTime.Time
}.

(** Modelled from the spec: the destination, sections 3 and 6. *)
Record Destination : Type := {
  RecipientKeys : list string;
  ServiceEndpoint : string;
  RoutingKeys : list string
}.

(** Modelled from the spec: the error kinds of section 7 that the
    destination resolver raises. *)
Inductive Kind : Type :=
| RegistryResolutionFailed
| MissingService
| ServiceTypeNotFound
| MissingEndpoint
| NoRecipientKeys.

(** Modelled from the spec: a failure of the resolver (the missing
    functions return a Go error; section 7 sorts them into kinds): its
    kind and the error handed to the caller. *)
Record Failure : Type := {
  kind : Kind;
  err : error
}.

(** Modelled from the spec: what the missing resolver functions return,
    a value or a failure. *)
Inductive outcome (A : Type) : Type :=
| Done (a : A)
| Failed (f : Failure).
Arguments Done {A} a.
Arguments Failed {A} f.

(** Modelled from the spec: the service type that section 4.2 looks for
    (the constant is missing). *)
Definition didCommServiceType : string := "did-communication".

(** Modelled from the spec: section 4.1, the first service whose type is
    [serviceType], in the order of the document ([did.LookupService] is
    missing). *)
Fixpoint lookupService (services : list Service) (serviceType : string)
  : option Service :=
  match services with
  | [] => None
  | s :: rest =>
      if String.eqb (svcType s) serviceType then Some s
      else lookupService rest serviceType
  end.

(** Modelled from the spec: section 4.1, a reference resolves to the
    value of a public key of the document that bears the reference as
    identifier and has the wanted type. *)
Fixpoint lookupKey (keys : list PublicKey) (reference keyType : string)
  : option string :=
  match keys with
  | [] => None
  | k :: rest =>
      if String.eqb (pkID k) reference && String.eqb (pkType k) keyType
      then Some (pkValue k)
      else lookupKey rest reference keyType
  end.

(** Modelled from the spec: section 4.1, references that do not resolve
    are dropped, the others keep their order. *)
Fixpoint resolveRecipientKeys (keys : list PublicKey)
    (references : list string) (keyType : string) : list string :=
  match references with
  | [] => []
  | r :: rest =>
      match lookupKey keys r keyType with
      | Some v => v :: resolveRecipientKeys keys rest keyType
      | None => resolveRecipientKeys keys rest keyType
      end
  end.

(** Modelled from the spec: section 4.1, [did.LookupRecipientKeys] (the
    function is missing; the test calls it).  The result is the pair of
    Go: the keys, [nil] when there are none, and the flag. *)
Definition lookupRecipientKeys (didDoc : Doc) (serviceType keyType : string)
  : list string * bool :=
  match lookupService (docService didDoc) serviceType with
  | None => ([], false)
  | Some s =>
      match resolveRecipientKeys (docPublicKey didDoc) (svcRecipientKeys s) keyType with
      | [] => ([], false)
      | keys => (keys, true)
      end
  end.

Section Resolver.

(** The specification does not tell a literal key from a reference, nor
    does it give the text of the errors other than that of
    [MissingService], nor the context put before a registry error; they
    are left open. *)
Variable resolveKey : Doc -> string -> option string.
Variable describe : Kind -> string.
Variable resolutionContext : string -> string.

(** Modelled from the spec: section 4.2, steps 3 and 4, the keys of the
    references that resolve, in their order (the helper is missing). *)
Fixpoint resolveKeys (didDoc : Doc) (references : list string) : list string :=
  match references with
  | [] => []
  | r :: rest =>
      match resolveKey didDoc r with
      | Some v => v :: resolveKeys didDoc rest
      | None => resolveKeys didDoc rest
      end
  end.

(** Modelled from the spec: a failure of kind [k] with a new error of
    the given text. *)
Definition fail {A} (k : Kind) (message : string) : outcome A :=
  Failed {| kind := k; err := errorString message |}.

(** Modelled from the spec: section 4.2, [CreateDestination] (the
    function is missing; the test calls it). *)
Definition createDestination (didDoc : Doc) : outcome Destination :=
  match docService didDoc with
  | [] => fail MissingService "missing DID doc service"
  | services =>
      match lookupService services didCommServiceType with
      | None => fail ServiceTypeNotFound (describe ServiceTypeNotFound)
      | Some s =>
          if String.eqb (svcServiceEndpoint s) ""
          then fail MissingEndpoint (describe MissingEndpoint)
          else
            match resolveKeys didDoc (svcRecipientKeys s) with
            | [] => fail NoRecipientKeys (describe NoRecipientKeys)
            | recipientKeys =>
                Done {| RecipientKeys := recipientKeys;
                        ServiceEndpoint := svcServiceEndpoint s;
                        RoutingKeys := resolveKeys didDoc (svcRoutingKeys s) |}
            end
      end
  end.

(** Modelled from the spec: section 6, the VDR registry, which resolves
    an identifier to a document or fails. *)
Definition Registry : Type := string -> result Doc.

(** Modelled from the spec: section 4.2, [GetDestination] (the function
    is missing; the test calls it).  A registry error is wrapped with a
    context and handed on. *)
Definition getDestination (identifier : string) (registry : Registry)
  : outcome Destination :=
  match registry identifier with
  | Err cause =>
      Failed {| kind := RegistryResolutionFailed;
                err := Errorf_w (resolutionContext identifier) cause |}
  | Ok didDoc => createDestination didDoc
  end.

End Resolver.

(** *** The documents the tests build *)

(** The document of the tests: one key, one "did-communication" service
    with the given recipient keys. *)
Definition testDoc (services : list Service) : Doc :=
  {| docID := "did:test:abc";
     docPublicKey :=
       [ {| pkID := "did:test:abc#keys-1";
            pkType := "Ed25519VerificationKey2018";
            pkController := "did:test:abc";
            pkValue := "76HmFbj8sds7jjdnZ4hMVcQgtUYZpEN1HEmPnCrH2Bby" |} ];
     docService := services;
     docCreated := None;
     docUpdated := None |}.

Definition testService (recipientKeys : list string) : Service :=
  {| svcID := "did:test:abc#endpoint-1";
     svcType := "did-communication";
     svcServiceEndpoint := "http://localhost:58416";
     svcPriority := 0%Z;
     svcRecipientKeys := recipientKeys;
     svcRoutingKeys := [] |}.

(** A document with a key of the wanted type that no service refers
    to, and a service whose only recipient key is of another type. *)
Definition twoKeysDoc : Doc :=
  {| docID := "did:test:abc";
     docPublicKey :=
       [ {| pkID := "did:test:abc#keys-1";
            pkType := "Ed25519VerificationKey2018";
            pkController := "did:test:abc";
            pkValue := "76HmFbj8sds7jjdnZ4hMVcQgtUYZpEN1HEmPnCrH2Bby" |};
         {| pkID := "did:test:abc#keys-2";
            pkType := "RsaVerificationKey2018";
            pkController := "did:test:abc";
            pkValue := "MIIBIjANBgkqhkiG9w0BAQEFAAOCAQ8A" |} ];
     docService := [testService ["did:test:abc#keys-2"]];
     docCreated := None;
     docUpdated := None |}.

End Destinations.

(** * Properties *)

(** ** Facts about the Go runtime model *)


Lemma Split_length (s : string) (sep : ascii) :
  List.length (Split s sep) = S (Count s sep).
Proof.
  induction s as [|c rest IH]; simpl; [reflexivity|].
  destruct (Ascii.eqb c sep); simpl; [now rewrite IH|].
  destruct (Split rest sep) as [|p ps] eqn:E; simpl in *; [discriminate|exact IH].
Qed.

Lemma Split_no_sep (s : string) (sep : ascii) :
  Count s sep = 0 -> Split s sep = [s].
Proof.
  induction s as [|c rest IH]; simpl; [reflexivity|].
  destruct (Ascii.eqb c sep); [discriminate|].
  intros H. now rewrite (IH H).
Qed.


(** A split into two parts determines the string. *)
Lemma Split_two_inv (s : string) (sep : ascii) (a b : string) :
  Split s sep = [a; b] ->
  s = a ++ String sep b /\ Count a sep = 0 /\ Count b sep = 0.
Proof.
  revert a; induction s as [|c rest IH]; intros a; simpl; [discriminate|].
  destruct (Ascii.eqb c sep) eqn:E.
  - apply Ascii.eqb_eq in E; subst c. intros H.
    injection H as <- H.
    pose proof (Split_length rest sep) as L. rewrite H in L. simpl in L.
    assert (C : Count rest sep = 0) by lia.
    rewrite (Split_no_sep _ _ C) in H. injection H as ->.
    now repeat split.
  - destruct (Split rest sep) as [|p ps] eqn:S; [discriminate|].
    intros H. injection H as <- ->.
    destruct (IH p eq_refl) as (-> & Ca & Cb).
    repeat split; simpl; [now rewrite E|assumption].
Qed.

Lemma HasPrefix_app (p s : string) : HasPrefix (p ++ s) p = true.
Proof.
  induction p as [|c p IH]; simpl; [now destruct s|].
  now rewrite Ascii.eqb_refl.
Qed.

Lemma Contains_eq (s sub : string) :
  Contains s sub =
  HasPrefix s sub ||
  match s with EmptyString => false | String _ rest => Contains rest sub end.
Proof. destruct s; reflexivity. Qed.

Lemma Contains_app (pre sub post : string) :
  Contains (pre ++ sub ++ post) sub = true.
Proof.
  induction pre as [|c pre IH].
  - rewrite Contains_eq. simpl. now rewrite HasPrefix_app.
  - rewrite Contains_eq. cbn [append]. rewrite IH. apply orb_true_r.
Qed.

Lemma Split_two_iff_Count (s : string) (sep : ascii) :
  Count s sep = 1 <-> exists a b, Split s sep = [a; b].
Proof.
  pose proof (Split_length s sep) as L. split.
  - intros C. rewrite C in L.
    destruct (Split s sep) as [|a [|b [|c r]]]; try discriminate.
    now exists a, b.
  - intros (a & b & E). rewrite E in L. simpl in L. lia.
Qed.

(** ** The key resolver adapter *)

Section AdapterFacts.

Variables PublicKey World : Type.
Variable f : Verifiable.PublicKeyFetcher PublicKey World.

Import Verifiable.

Local Abbreviation k := (Build_keyResolverAdapter f).

Lemma Resolve_two_parts (id owner fragment : string) (w : World) :
  Split id hash = [owner; fragment] ->
  Resolve k id w = f owner ("#" ++ fragment) w.
Proof.
  intros E. unfold Resolve. rewrite E. simpl.
  now destruct (f owner (String "#" fragment) w) as [[pk|err] w'].
Qed.

Lemma fetchCalls_two_parts (id owner fragment : string) (w : World) :
  Split id hash = [owner; fragment] ->
  fetchCalls f id w = [(owner, "#" ++ fragment)].
Proof.
  intros E. unfold fetchCalls, Resolve. rewrite E. simpl.
  unfold recording. simpl.
  now destruct (f owner (String "#" fragment) w) as [[pk|err] w'].
Qed.

Lemma Resolve_other_parts (id : string) (w : World) :
  List.length (Split id hash) <> 2 ->
  Resolve k id w = (Err (wrongID (Split id hash)), w) /\ fetchCalls f id w = [].
Proof.
  intros N. apply Nat.eqb_neq in N.
  unfold fetchCalls, Resolve, resolveIDParts. now rewrite N.
Qed.

(** C5.  Whenever the identifier splits into an owner and a fragment,
    [Resolve] is one call of the fetcher on the owner and on ["#"]
    followed by the fragment: the fetcher is called exactly once with
    these arguments, and the key or the error it returns, and the world
    it leaves, are those of [Resolve]. *)
Theorem Resolve_calls_fetcher_once (id owner fragment : string) (w : World) :
  Split id hash = [owner; fragment] ->
  fetchCalls f id w = [(owner, "#" ++ fragment)] /\
  Resolve k id w = f owner ("#" ++ fragment) w /\
  (forall pubKey w', f owner ("#" ++ fragment) w = (Ok pubKey, w') ->
                     Resolve k id w = (Ok pubKey, w')) /\
  (forall err w', f owner ("#" ++ fragment) w = (Err err, w') ->
                  Resolve k id w = (Err err, w')).
Proof.
  intros E. pose proof (Resolve_two_parts _ _ _ w E) as R.
  split; [now apply fetchCalls_two_parts|].
  split; [exact R|].
  split; intros x w' F; now rewrite R.
Qed.

(** C10.  An identifier with exactly one ['#'] is never rejected as
    malformed, whether or not the text before or after the ['#'] is
    empty: it is [owner ++ "#" ++ fragment] for an owner and a fragment
    free of ['#'], the fetcher is called once on [owner] and
    ["#" ++ fragment], and the outcome of [Resolve] is the outcome of
    that call. *)
Theorem Resolve_single_hash (id : string) (w : World) :
  Count id hash = 1 ->
  exists owner fragment,
    id = owner ++ "#" ++ fragment /\
    Count owner hash = 0 /\ Count fragment hash = 0 /\
    fetchCalls f id w = [(owner, "#" ++ fragment)] /\
    Resolve k id w = f owner ("#" ++ fragment) w /\
    ~ MalformedIdentifier f id w.
Proof.
  intros C. apply Split_two_iff_Count in C as (owner & fragment & E).
  exists owner, fragment.
  destruct (Split_two_inv _ _ _ _ E) as (-> & Co & Cf).
  pose proof (fetchCalls_two_parts _ _ _ w E) as L.
  repeat split; try assumption.
  - now apply Resolve_two_parts.
  - intros [_ M]. rewrite L in M. discriminate.
Qed.

(** C1, as the code has it.  [Resolve] rejects an identifier as
    malformed exactly when splitting it on ['#'] does not give two
    parts, that is when it does not hold exactly one ['#']; the two parts
    may be empty. *)
Theorem Resolve_malformed_iff (id : string) (w : World) :
  (MalformedIdentifier f id w <-> List.length (Split id hash) <> 2) /\
  (MalformedIdentifier f id w <-> Count id hash <> 1).
Proof.
  assert (A : MalformedIdentifier f id w <-> List.length (Split id hash) <> 2).
  { split.
    - intros [_ M] L.
      destruct (Split id hash) as [|a [|b [|c r]]] eqn:E; try discriminate.
      rewrite (fetchCalls_two_parts _ _ _ w E) in M. discriminate.
    - intros N. now apply Resolve_other_parts. }
  split; [exact A|].
  rewrite A, Split_length. lia.
Qed.

End AdapterFacts.

(** C5 at ["did:test:abc#keys-1"], with a fetcher that counts its calls
    in the world and always fails. *)
Lemma Resolve_calls_fetcher_once_witness :
  let f : Verifiable.PublicKeyFetcher unit nat :=
    fun _ _ n => (Err (errorString "key not found"), S n) in
  Split "did:test:abc#keys-1" Verifiable.hash = ["did:test:abc"; "keys-1"] /\
  Verifiable.fetchCalls f "did:test:abc#keys-1" 0 = [("did:test:abc", "#keys-1")] /\
  Verifiable.Resolve (Verifiable.Build_keyResolverAdapter f) "did:test:abc#keys-1" 0
  = (Err (errorString "key not found"), 1).
Proof.
  intros f.
  split; [reflexivity|].
  destruct (Resolve_calls_fetcher_once unit nat f "did:test:abc#keys-1"
              "did:test:abc" "keys-1" 0 eq_refl) as (L & R & _).
  split; [exact L|exact R].
Defined.

(** C10 at ["#keys-1"], whose owner part is empty. *)
Lemma Resolve_single_hash_witness :
  let f : Verifiable.PublicKeyFetcher string unit :=
    fun owner keyID w => (Ok (owner ++ keyID), w) in
  Count "#keys-1" Verifiable.hash = 1 /\
  exists owner fragment,
    "#keys-1" = owner ++ "#" ++ fragment /\
    Verifiable.Resolve (Verifiable.Build_keyResolverAdapter f) "#keys-1" tt
    = f owner ("#" ++ fragment) tt.
Proof.
  intros f. split; [reflexivity|].
  destruct (Resolve_single_hash string unit f "#keys-1" tt eq_refl)
    as (owner & fragment & E & _ & _ & _ & R & _).
  exists owner, fragment. split; [exact E|exact R].
Defined.

(** C1 fails as stated: ["#keys-1"] does not split into two non-empty
    parts, its owner part being empty, and yet [Resolve] does not reject
    it: the fetcher is called and its key is returned. *)
Lemma Resolve_accepts_empty_owner :
  let f : Verifiable.PublicKeyFetcher string unit :=
    fun owner keyID w => (Ok (owner ++ keyID), w) in
  ~ Verifiable.splitsIntoTwoNonEmpty "#keys-1" /\
  ~ Verifiable.MalformedIdentifier f "#keys-1" tt /\
  Verifiable.Resolve (Verifiable.Build_keyResolverAdapter f) "#keys-1" tt
  = (Ok "#keys-1", tt).
Proof.
  intros f. repeat split.
  - intros (owner & fragment & E & No & _).
    vm_compute in E. injection E as <- _. now apply No.
  - intros [M _]. vm_compute in M. discriminate.
Qed.

(** ** Go's [time] model: digits, parsing, formatting *)

Ltac Zify.zify_post_hook ::= Z.to_euclidean_division_equations.

Lemma append_empty_r (s : string) : s ++ "" = s.
Proof. induction s as [|c s IH]; simpl; [reflexivity|now rewrite IH]. Qed.

Lemma append_assoc (a b c : string) : (a ++ b) ++ c = a ++ b ++ c.
Proof. induction a as [|x a IH]; simpl; [reflexivity|now rewrite IH]. Qed.

Lemma Count_append (a b : string) (c : ascii) :
  Count (a ++ b) c = Count a c + Count b c.
Proof. induction a as [|x a IH]; simpl; [reflexivity|rewrite IH; lia]. Qed.

Section Digits.

Import GoTime.

Lemma digit_cases (d : N) :
  (d < 10)%N ->
  d = 0%N \/ d = 1%N \/ d = 2%N \/ d = 3%N \/ d = 4%N \/
  d = 5%N \/ d = 6%N \/ d = 7%N \/ d = 8%N \/ d = 9%N.
Proof. lia. Qed.

Ltac each_digit d H :=
  destruct (digit_cases d H) as [->|[->|[->|[->|[->|[->|[->|[->|[->| ->]]]]]]]]].

Lemma isDigit_digitChar (d : N) : (d < 10)%N -> isDigit (digitChar d) = true.
Proof. intros H. each_digit d H; reflexivity. Qed.

Lemma digitVal_digitChar (d : N) : (d < 10)%N -> digitVal (digitChar d) = d.
Proof. intros H. each_digit d H; reflexivity. Qed.

Lemma digitChar_not_period (d : N) :
  (d < 10)%N -> Ascii.eqb (digitChar d) "." = false.
Proof. intros H. each_digit d H; reflexivity. Qed.

Lemma Count_fixedDigits_period (width : nat) (x : N) :
  Count (fixedDigits width x) "." = 0.
Proof.
  revert x; induction width as [|w IH]; intros x; simpl; [reflexivity|].
  rewrite Count_append, IH. simpl.
  rewrite digitChar_not_period; [reflexivity|lia].
Qed.

Lemma numDigitsAux_le (fuel : nat) :
  forall (x : N) (w : nat),
    1 <= w -> (x < 10 ^ N.of_nat w)%N -> numDigitsAux fuel x <= w.
Proof.
  induction fuel as [|f IH]; intros x w W X; simpl; [exact W|].
  destruct (N.ltb_spec x 10) as [L|G]; [exact W|].
  destruct w as [|[|w]]; [lia| |].
  - change (10 ^ N.of_nat 1)%N with 10%N in X. lia.
  - apply le_n_S, IH; [lia|].
    replace (N.of_nat (S (S w))) with (N.succ (N.of_nat (S w))) in X by lia.
    rewrite N.pow_succ_r' in X.
    apply N.Div0.div_lt_upper_bound. exact X.
Qed.

Lemma appendInt_fixed (x : N) (w : nat) :
  1 <= w -> (x < 10 ^ N.of_nat w)%N -> appendInt x w = fixedDigits w x.
Proof.
  intros W X. unfold appendInt, numDigits.
  pose proof (numDigitsAux_le (N.size_nat x) x w W X).
  now rewrite Nat.max_l.
Qed.

Lemma getnum_fixedDigits (x : N) (rest : string) (fixed : bool) :
  (x < 100)%N ->
  getnum (fixedDigits 2 x ++ rest) fixed = Some (x, rest).
Proof.
  intros X. cbn [fixedDigits append getnum].
  rewrite !isDigit_digitChar, !digitVal_digitChar by lia.
  f_equal. f_equal. lia.
Qed.

Lemma getYear_fixedDigits (x : N) (rest : string) :
  (x < 10000)%N ->
  getYear (fixedDigits 4 x ++ rest) = Some (x, rest).
Proof.
  intros X. cbn [fixedDigits append getYear].
  rewrite !isDigit_digitChar, !digitVal_digitChar by lia.
  cbn [andb]. f_equal. f_equal. lia.
Qed.

End Digits.

Section ZeroFraction.

Import GoTime Util.

Lemma take_zeros (n : nat) (rest : string) : take n (zeros n ++ rest) = zeros n.
Proof. induction n as [|n IH]; simpl; [reflexivity|now rewrite IH]. Qed.

Lemma drop_zeros (n : nat) (rest : string) : drop n (zeros n ++ rest) = rest.
Proof. induction n as [|n IH]; simpl; [reflexivity|exact IH]. Qed.

Lemma runDigits_zeros (n : nat) (rest : string) :
  headIsDigit rest = false -> runDigits (zeros n ++ rest) = n.
Proof.
  intros H. induction n as [|n IH]; cbn [zeros append runDigits].
  - destruct rest as [|c r]; [reflexivity|].
    cbn [headIsDigit] in H. cbn [runDigits]. now rewrite H.
  - change (isDigit "0") with true. cbn iota. now rewrite IH.
Qed.

Lemma runLength_zeros (n : nat) (rest : string) :
  HasPrefix rest "0" = false -> runLength "0" (zeros n ++ rest) = n.
Proof.
  intros H. induction n as [|n IH]; cbn [zeros append runLength].
  - destruct rest as [|c r]; [reflexivity|].
    cbn [HasPrefix] in H. cbn [runLength].
    destruct (Ascii.eqb c "0"); [now simpl in H|reflexivity].
  - change (Ascii.eqb "0" "0") with true. cbn iota. now rewrite IH.
Qed.

Lemma digitsValue_zeros (n : nat) : digitsValue 0 (zeros n) = 0%N.
Proof. induction n as [|n IH]; simpl; [reflexivity|exact IH]. Qed.

Lemma take_take_zeros (m n : nat) : take m (zeros n) = zeros (Nat.min m n).
Proof.
  revert n; induction m as [|m IH]; intros [|n]; simpl; try reflexivity.
  now rewrite IH.
Qed.

Lemma parseNanoseconds_zeros (n : nat) : parseNanoseconds (zeros n) = 0%N.
Proof.
  unfold parseNanoseconds. now rewrite take_take_zeros, digitsValue_zeros.
Qed.

Lemma getFraction_zeros (n : nat) (rest : string) :
  headIsDigit rest = false ->
  getFraction (String "." (zeros (S n) ++ rest)) = (0%N, rest).
Proof.
  intros H. cbn [append zeros getFraction commaOrPeriod].
  change (String "0" (zeros n ++ rest)) with (zeros (S n) ++ rest).
  cbn [Ascii.eqb Bool.eqb orb andb isDigit]. 
  rewrite (runDigits_zeros (S n) rest H), take_zeros, drop_zeros.
  now rewrite parseNanoseconds_zeros.
Qed.

(** Parsing a well-formed timestamp with a zero fraction gives back its
    fields, no nanoseconds, and UTC. *)
Lemma parseRFC3339_timestampZ (year month day hour min sec : N) (n : nat) :
  validFields year month day hour min sec ->
  parseRFC3339 (timestampZ year month day hour min sec (zeros (S n)))
  = Some {| Year := year; Month := month; Day := day;
            Hour := hour; Minute := min; Second := sec;
            Nanosecond := 0; ZoneOffset := 0 |}.
Proof.
  intros (Y & M & D & H & Mi & Hs).
  unfold parseRFC3339, timestampZ.
  rewrite getYear_fixedDigits by exact Y. cbn [bind skip append Ascii.eqb Bool.eqb].
  rewrite getnum_fixedDigits by lia. cbn [bind].
  replace ((1 <=? month)%N && (month <=? 12)%N) with true
    by (symmetry; apply andb_true_iff; split; apply N.leb_le; lia).
  cbn [bind guard skip append Ascii.eqb Bool.eqb].
  rewrite getnum_fixedDigits by (unfold daysIn in D;
    repeat match type of D with context [if ?b then _ else _] => destruct b end; lia).
  cbn [bind skip append Ascii.eqb Bool.eqb].
  rewrite getnum_fixedDigits by lia. cbn [bind].
  replace (hour <? 24)%N with true by (symmetry; apply N.ltb_lt; lia).
  cbn [bind guard skip append Ascii.eqb Bool.eqb].
  rewrite getnum_fixedDigits by lia. cbn [bind].
  replace (min <? 60)%N with true by (symmetry; apply N.ltb_lt; lia).
  cbn [bind guard skip append Ascii.eqb Bool.eqb].
  rewrite getnum_fixedDigits by lia. cbn [bind].
  replace (sec <? 60)%N with true by (symmetry; apply N.ltb_lt; lia).
  cbn [bind guard].
  rewrite (getFraction_zeros n "Z" eq_refl).
  cbn [getZone bind guard String.eqb].
  replace ((1 <=? day)%N && (day <=? daysIn month year)%N) with true
    by (symmetry; apply andb_true_iff; split; apply N.leb_le; lia).
  reflexivity.
Qed.

End ZeroFraction.

(** ** [TimeWithTrailingZeroMsec] *)

Section TrailingZeros.

Import GoTime Util.

(** Before the first period the scan only moves on. *)
Lemma keepTrailingZerosLoop_skip (before rest : string) (z : Z)
    (tm : TimeWithTrailingZeroMsec) :
  Count before "." = 0 ->
  keepTrailingZerosLoop (before ++ rest) false z tm
  = keepTrailingZerosLoop rest false z tm.
Proof.
  induction before as [|c b IH]; cbn [append Count keepTrailingZerosLoop negb];
    [reflexivity|].
  destruct (Ascii.eqb c "."); [discriminate|]. exact IH.
Qed.

(** After the period, zeros are counted up to the [Z]. *)
Lemma keepTrailingZerosLoop_zeros (n : nat) (z : Z) (after : string)
    (tm : TimeWithTrailingZeroMsec) :
  keepTrailingZerosLoop (zeros n ++ String "Z" after) true z tm
  = if (0 <? z + Z.of_nat n)%Z
    then {| Time := Time tm; trailingZerosMsecCount := z + Z.of_nat n |}
    else tm.
Proof.
  revert z; induction n as [|n IH]; intros z;
    cbn [zeros append keepTrailingZerosLoop negb].
  - change (Ascii.eqb "Z" "Z") with true. cbn iota.
    change (Z.of_nat 0) with 0%Z. now rewrite Z.add_0_r.
  - change (Ascii.eqb "0" "Z") with false. change (Ascii.eqb "0" "0") with true.
    cbn [negb]. rewrite IH.
    now replace (z + 1 + Z.of_nat n)%Z with (z + Z.of_nat (S n))%Z by lia.
Qed.

(** In the fraction the scan either leaves [tm] as it is, or it has read
    zeros up to a [Z] and stores their number. *)
Lemma keepTrailingZerosLoop_fraction (s : string) :
  forall (z : Z) (tm : TimeWithTrailingZeroMsec),
    keepTrailingZerosLoop s true z tm = tm \/
    exists n after,
      s = zeros n ++ String "Z" after /\ (0 < z + Z.of_nat n)%Z /\
      keepTrailingZerosLoop s true z tm
      = {| Time := Time tm; trailingZerosMsecCount := z + Z.of_nat n |}.
Proof.
  induction s as [|c s IH]; intros z tm; cbn [keepTrailingZerosLoop negb];
    [now left|].
  destruct (Ascii.eqb c "Z") eqn:EZ.
  - apply Ascii.eqb_eq in EZ; subst c.
    destruct (Z.ltb_spec 0 z) as [P|P]; [right|now left].
    exists 0, s. change (Z.of_nat 0) with 0%Z. rewrite Z.add_0_r.
    now repeat split.
  - destruct (Ascii.eqb c "0") eqn:E0; cbn [negb]; [|now left].
    apply Ascii.eqb_eq in E0; subst c.
    destruct (IH (z + 1)%Z tm) as [U|(n & after & -> & P & U)]; [now left|right].
    exists (S n), after.
    replace (z + Z.of_nat (S n))%Z with (z + 1 + Z.of_nat n)%Z by lia.
    repeat split; [exact P|exact U].
Qed.

(** The whole scan either leaves [tm] as it is, or the string has a zero
    fraction closed by [Z] and the number of its zeros is stored. *)
Lemma keepTrailingZerosLoop_scan (s : string) (tm : TimeWithTrailingZeroMsec) :
  keepTrailingZerosLoop s false 0 tm = tm \/
  exists before n after,
    Count before "." = 0 /\
    s = before ++ "." ++ zeros (S n) ++ "Z" ++ after /\
    keepTrailingZerosLoop s false 0 tm
    = {| Time := Time tm; trailingZerosMsecCount := Z.of_nat (S n) |}.
Proof.
  induction s as [|c s IH]; cbn [keepTrailingZerosLoop negb]; [now left|].
  destruct (Ascii.eqb c ".") eqn:E.
  - apply Ascii.eqb_eq in E; subst c.
    destruct (keepTrailingZerosLoop_fraction s 0 tm)
      as [U|(n & after & -> & P & U)]; [now left|right].
    destruct n as [|n]; [cbn in P; lia|].
    exists "", n, after. repeat split. exact U.
  - destruct IH as [U|(before & n & after & C & -> & U)]; [now left|right].
    exists (String c before), n, after.
    repeat split; [cbn [Count]; now rewrite E|exact U].
Qed.

Lemma addZeros_zeros (n : nat) (format : string) :
  addZeros n format = format ++ zeros n.
Proof.
  revert format; induction n as [|n IH]; intros format; cbn [addZeros zeros].
  - now rewrite append_empty_r.
  - rewrite IH, append_assoc. reflexivity.
Qed.

End TrailingZeros.

Section ZeroLayout.

Import GoTime Util.

Lemma stdAt_fraction (n : nat) :
  stdAt (String "." (zeros (S n) ++ "Z07:00"))
  = Some (stdFracSecond0 (S n), "Z07:00").
Proof.
  cbn [stdAt HasPrefix zeros append Ascii.eqb Bool.eqb andb orb].
  change (String "0" (zeros n ++ "Z07:00")) with (zeros (S n) ++ "Z07:00").
  rewrite (runLength_zeros (S n) "Z07:00" eq_refl), drop_zeros.
  reflexivity.
Qed.

Lemma appendFormat_fraction (t : GoTime.Time) (n fuel : nat) :
  appendFormat (S (S fuel)) t (String "." (zeros (S n) ++ "Z07:00"))
  = appendNano (Nanosecond t) (S n) false ++ appendZone (ZoneOffset t).
Proof.
  change (appendFormat (S (S fuel)) t (String "." (zeros (S n) ++ "Z07:00")))
    with (let '(prefix, code, suffix) :=
            match stdAt (String "." (zeros (S n) ++ "Z07:00")) with
            | Some (code, suffix) => ("", Some code, suffix)
            | None =>
                let '(prefix, code, suffix) :=
                  nextStdChunk (zeros (S n) ++ "Z07:00") in
                (String "." prefix, code, suffix)
            end in
          prefix ++
          match code with
          | None => ""
          | Some c => appendStd t c ++ appendFormat (S fuel) t suffix
          end).
  rewrite stdAt_fraction.
  cbn [append appendStd]. f_equal.
  change (appendFormat (S fuel) t "Z07:00")
    with (appendZone (ZoneOffset t) ++ appendFormat fuel t "").
  destruct fuel; cbn [appendFormat nextStdChunk append]; apply append_empty_r.
Qed.

(** The date and the time of day of a layout. *)
Lemma appendFormat_date_time (t : GoTime.Time) (fuel : nat) (rest : string) :
  appendFormat (6 + fuel) t ("2006-01-02T15:04:05" ++ rest)
  = appendInt (Year t) 4 ++ "-" ++ appendInt (Month t) 2 ++ "-"
    ++ appendInt (Day t) 2 ++ "T" ++ appendInt (Hour t) 2 ++ ":"
    ++ appendInt (Minute t) 2 ++ ":" ++ appendInt (Second t) 2
    ++ appendFormat fuel t rest.
Proof. reflexivity. Qed.

(** Formatting with the layout that keeps [S n] zeros. *)
Lemma AppendFormat_zero_layout (t : GoTime.Time) (n : nat) :
  AppendFormat t ("2006-01-02T15:04:05." ++ zeros (S n) ++ "Z07:00")
  = appendInt (Year t) 4 ++ "-" ++ appendInt (Month t) 2 ++ "-"
    ++ appendInt (Day t) 2 ++ "T" ++ appendInt (Hour t) 2 ++ ":"
    ++ appendInt (Minute t) 2 ++ ":" ++ appendInt (Second t) 2
    ++ appendNano (Nanosecond t) (S n) false ++ appendZone (ZoneOffset t).
Proof.
  unfold AppendFormat.
  change ("2006-01-02T15:04:05." ++ zeros (S n) ++ "Z07:00")
    with ("2006-01-02T15:04:05" ++ String "." (zeros (S n) ++ "Z07:00")).
  change (S (String.length
             ("2006-01-02T15:04:05" ++ String "." (zeros (S n) ++ "Z07:00"))))
    with (6 + S (S (13 + String.length (zeros (S n) ++ "Z07:00")))).
  rewrite appendFormat_date_time, appendFormat_fraction.
  reflexivity.
Qed.

Lemma appendNano_zero (n : nat) :
  S n <= 9 -> appendNano 0 (S n) false = "." ++ zeros (S n).
Proof.
  intros H.
  do 9 (destruct n as [|n]; [reflexivity|]). lia.
Qed.

End ZeroLayout.

Section TimestampRoundTrip.

Import GoTime Util.

Lemma keepTrailingZerosMsecFormat_timestampZ
    (year month day hour min sec : N) (n : nat) (tm : TimeWithTrailingZeroMsec) :
  keepTrailingZerosMsecFormat tm
    (timestampZ year month day hour min sec (zeros (S n)))
  = {| Time := Time tm; trailingZerosMsecCount := Z.of_nat (S n) |}.
Proof.
  unfold keepTrailingZerosMsecFormat, timestampZ.
  do 5 (rewrite keepTrailingZerosLoop_skip by apply Count_fixedDigits_period;
        cbn [append keepTrailingZerosLoop negb Ascii.eqb Bool.eqb]).
  rewrite keepTrailingZerosLoop_skip by apply Count_fixedDigits_period.
  cbn [append keepTrailingZerosLoop negb Ascii.eqb Bool.eqb].
  exact (keepTrailingZerosLoop_zeros (S n) 0 "" tm).
Qed.

Lemma MarshalJSON_zero_fraction (year month day hour min sec : N) (n : nat) :
  validFields year month day hour min sec -> S n <= 9 ->
  Util.MarshalJSON
    {| Time := {| Year := year; Month := month; Day := day;
                  Hour := hour; Minute := min; Second := sec;
                  Nanosecond := 0; ZoneOffset := 0 |};
       trailingZerosMsecCount := Z.of_nat (S n) |}
  = Ok (quote ++ timestampZ year month day hour min sec (zeros (S n)) ++ quote).
Proof.
  intros (Y & M & D & H & Mi & Hs) N9.
  assert (D' : (day < 100)%N).
  { unfold daysIn in D.
    repeat match type of D with context [if ?b then _ else _] => destruct b end;
      lia. }
  unfold Util.MarshalJSON, GoTime.MarshalJSON.
  cbn [Time Year ZoneOffset trailingZerosMsecCount].
  replace (10000 <=? year)%N with false by (symmetry; apply N.leb_gt; exact Y).
  change ((24 * 3600 <=? Z.abs 0)%Z) with false. cbn iota.
  replace (Z.of_nat (S n) =? 0)%Z with false by (symmetry; apply Z.eqb_neq; lia).
  unfold marshalJSONWithTrailingZeroMsec, getTrailingZeroIncludedFormat.
  cbn [Time trailingZerosMsecCount].
  rewrite Nat2Z.id, addZeros_zeros, append_assoc, AppendFormat_zero_layout.
  cbn [Year Month Day Hour Minute Second Nanosecond ZoneOffset].
  rewrite (appendInt_fixed year 4), !(appendInt_fixed _ 2)
    by (try (change (10 ^ N.of_nat 4)%N with 10000%N);
        try (change (10 ^ N.of_nat 2)%N with 100%N); lia).
  rewrite appendNano_zero by exact N9.
  reflexivity.
Qed.

End TimestampRoundTrip.




(** ** Recipient keys and destinations *)

Section DestinationFacts.

Import Destinations.

Variable resolveKey : Doc -> string -> option string.
Variable describe : Kind -> string.
Variable resolutionContext : string -> string.

Lemma resolveRecipientKeys_other_type (keys : list PublicKey)
    (references : list string) (keyType : string) :
  (forall r k, In r references -> In k keys -> pkID k = r -> pkType k <> keyType) ->
  resolveRecipientKeys keys references keyType = [].
Proof.
  intros Other.
  assert (L : forall r, In r references -> lookupKey keys r keyType = None).
  { intros r I.
    assert (O : forall k, In k keys -> pkID k = r -> pkType k <> keyType)
      by (intros k; now apply Other).
    clear Other. induction keys as [|k rest IH]; simpl; [reflexivity|].
    destruct (String.eqb_spec (pkID k) r) as [E|_]; cbn [andb].
    - destruct (String.eqb_spec (pkType k) keyType) as [T|_].
      + exfalso. apply (O k); [now left|exact E|exact T].
      + apply IH. intros k' I'. apply O. now right.
    - apply IH. intros k' I'. apply O. now right. }
  induction references as [|r rest IH]; simpl; [reflexivity|].
  rewrite L by now left.
  apply IH.
  - intros r' k I. apply Other. now right.
  - intros r' I. apply L. now right.
Qed.

(** C6.  A document without services makes [createDestination] fail
    with the kind [MissingService] and a message that contains
    "missing DID doc service"; a document that has services, none of them
    of type "did-communication", fails with the other kind
    [ServiceTypeNotFound]. *)
Theorem createDestination_missing_service (didDoc : Doc) :
  docService didDoc = [] ->
  (exists f,
      createDestination resolveKey describe didDoc = Failed f /\
      kind f = MissingService /\
      Contains (Error (err f)) "missing DID doc service" = true) /\
  (forall other : Doc,
      docService other <> [] ->
      lookupService (docService other) didCommServiceType = None ->
      exists f',
        createDestination resolveKey describe other = Failed f' /\
        kind f' = ServiceTypeNotFound /\
        kind f' <> MissingService).
Proof.
  intros E. split.
  - unfold createDestination. rewrite E.
    eexists. split; [reflexivity|]. split; reflexivity.
  - intros other NE L. unfold createDestination.
    destruct (docService other) as [|s rest]; [now elim NE|].
    rewrite L. eexists. split; [reflexivity|].
    split; [reflexivity|discriminate].
Qed.

(** C7.  When the registry fails on the identifier with an error,
    [getDestination] gives no destination: it fails with an error that
    wraps the registry's error and whose message ends with the message
    of that error. *)
Theorem getDestination_registry_error (identifier : string)
    (registry : Registry) (cause : error) :
  registry identifier = Err cause ->
  exists f,
    getDestination resolveKey describe resolutionContext identifier registry
    = Failed f /\
    Unwrap (err f) = Some cause /\
    Error (err f) = resolutionContext identifier ++ Error cause /\
    Contains (Error (err f)) (Error cause) = true.
Proof.
  intros R. unfold getDestination. rewrite R.
  eexists. split; [reflexivity|]. cbn [err Errorf_w Unwrap Error].
  split; [reflexivity|]. split; [reflexivity|].
  rewrite <- (append_empty_r (Error cause)) at 1.
  apply Contains_app.
Qed.

(** C8.  [lookupRecipientKeys] has no error to return: its result is
    the keys and a flag.  Without a service of the type, or when the
    keys resolved for the first such service are none, it returns no
    keys and [false]; this is so when the service lists no recipient key
    and when every key it refers to has a type other than the requested
    one.  Otherwise it returns the resolved keys and [true]. *)
Theorem lookupRecipientKeys_found_or_not (didDoc : Doc)
    (serviceType keyType : string) :
  (lookupService (docService didDoc) serviceType = None ->
   lookupRecipientKeys didDoc serviceType keyType = ([], false)) /\
  (forall s,
      lookupService (docService didDoc) serviceType = Some s ->
      let keys :=
        resolveRecipientKeys (docPublicKey didDoc) (svcRecipientKeys s) keyType in
      (keys = [] -> lookupRecipientKeys didDoc serviceType keyType = ([], false)) /\
      (keys <> [] -> lookupRecipientKeys didDoc serviceType keyType = (keys, true)) /\
      (svcRecipientKeys s = [] -> keys = []) /\
      ((forall r k,
           In r (svcRecipientKeys s) -> In k (docPublicKey didDoc) ->
           pkID k = r -> pkType k <> keyType) ->
       keys = [])).
Proof.
  unfold lookupRecipientKeys. split.
  - now intros ->.
  - intros s E. cbv zeta. rewrite E. split; [|split; [|split]].
    + now intros ->.
    + intros NE.
      now destruct (resolveRecipientKeys (docPublicKey didDoc) (svcRecipientKeys s) keyType).
    + now intros ->.
    + apply resolveRecipientKeys_other_type.
Qed.

End DestinationFacts.

(** C6 on the document of the test "error while getting service", whose
    services are [nil]. *)
Lemma createDestination_missing_service_witness :
  Destinations.docService (Destinations.testDoc []) = [] /\
  exists f,
    Destinations.createDestination (fun _ r => Some r) (fun _ => "") (Destinations.testDoc [])
    = Destinations.Failed f /\
    Destinations.kind f = Destinations.MissingService /\
    Contains (Error (Destinations.err f)) "missing DID doc service" = true.
Proof.
  split; [reflexivity|].
  exact (proj1 (createDestination_missing_service
                  (fun _ r => Some r) (fun _ => "") (Destinations.testDoc []) eq_refl)).
Defined.

(** C7 on the registry of the test "test did document not found". *)
Lemma getDestination_registry_error_witness :
  let registry : Destinations.Registry :=
    fun _ => Err (errorString "resolver error") in
  registry "did:test:abc" = Err (errorString "resolver error") /\
  exists f,
    Destinations.getDestination (fun _ r => Some r) (fun _ => "")
      (fun id => "resolve " ++ id ++ ": ") "did:test:abc" registry
    = Destinations.Failed f /\
    Contains (Error (Destinations.err f)) "resolver error" = true.
Proof.
  intros registry. split; [reflexivity|].
  destruct (getDestination_registry_error (fun _ r => Some r) (fun _ => "")
              (fun id => "resolve " ++ id ++ ": ") "did:test:abc" registry
              (errorString "resolver error") eq_refl)
    as (f & G & _ & _ & C).
  exists f. split; [exact G|exact C].
Defined.

(** C8 on three documents: that of the test "error while getting
    recipient keys from did doc", whose service lists no recipient key;
    [twoKeysDoc], whose service refers to a key of another type while a
    key of the requested type goes unreferenced; and the document of the
    tests as it is built, whose key is found. *)
Lemma lookupRecipientKeys_found_or_not_witness :
  Destinations.lookupRecipientKeys
    (Destinations.testDoc [Destinations.testService []])
    "did-communication" "Ed25519VerificationKey2018" = ([], false) /\
  Destinations.lookupRecipientKeys Destinations.twoKeysDoc
    "did-communication" "Ed25519VerificationKey2018" = ([], false) /\
  Destinations.lookupRecipientKeys
    (Destinations.testDoc [Destinations.testService ["did:test:abc#keys-1"]])
    "did-communication" "Ed25519VerificationKey2018"
  = (["76HmFbj8sds7jjdnZ4hMVcQgtUYZpEN1HEmPnCrH2Bby"], true).
Proof.
  split; [|split].
  - exact (proj1 (proj2 (lookupRecipientKeys_found_or_not
                           (Destinations.testDoc [Destinations.testService []])
                           "did-communication" "Ed25519VerificationKey2018")
                    (Destinations.testService []) eq_refl) eq_refl).
  - destruct (proj2 (lookupRecipientKeys_found_or_not Destinations.twoKeysDoc
                       "did-communication" "Ed25519VerificationKey2018")
                (Destinations.testService ["did:test:abc#keys-2"]) eq_refl)
      as (None & _ & _ & Other).
    apply None, Other.
    intros r k [<-|[]] [<-|[<-|[]]] E; [discriminate E|discriminate].
  - refine (proj1 (proj2 (proj2 (lookupRecipientKeys_found_or_not
              (Destinations.testDoc
                 [Destinations.testService ["did:test:abc#keys-1"]])
              "did-communication" "Ed25519VerificationKey2018")
              (Destinations.testService ["did:test:abc#keys-1"]) eq_refl)) _).
    discriminate.
Defined.

(** ** Adding a linked data proof *)

Section AddProofFacts.

Import LinkedDataProof.

Variables PublicKey World JSONObject Proof : Type.
Variable documentSigner_Sign :
  SignerSignatureSuite JSONObject -> signerContext -> string -> World ->
  result string * World.
Variable json_Unmarshal_rawProof : string -> result string.
Variable decodeProof : string -> result (list Proof).

Local Abbreviation add :=
  (addLinkedDataProof World JSONObject Proof
     documentSigner_Sign json_Unmarshal_rawProof decodeProof).
Local Abbreviation signingFailed :=
  (SigningFailed World JSONObject documentSigner_Sign).
Local Abbreviation malformedDocument :=
  (MalformedDocument World JSONObject Proof
     documentSigner_Sign json_Unmarshal_rawProof decodeProof).


End AddProofFacts.


(** ** Further properties of the key resolver adapter *)

Lemma Split_not_nil (s : string) (sep : ascii) : Split s sep <> [].
Proof.
  destruct s as [|c rest]; simpl; [discriminate|].
  destruct (Ascii.eqb c sep); [discriminate|].
  destruct (Split rest sep); discriminate.
Qed.

(** Joining the parts of a split with another byte replaces the
    separator by that byte. *)
Lemma Join_Split (s : string) (sep new : ascii) :
  Join (Split s sep) (String new "") = ReplaceAll s sep new.
Proof.
  induction s as [|c rest IH]; cbn [Split ReplaceAll]; [reflexivity|].
  pose proof (Split_not_nil rest sep) as NE.
  destruct (Ascii.eqb c sep).
  - destruct (Split rest sep) as [|p ps]; [now elim NE|].
    change (Join ("" :: p :: ps) (String new ""))
      with ("" ++ String new "" ++ Join (p :: ps) (String new "")).
    now rewrite IH.
  - destruct (Split rest sep) as [|p ps]; [now elim NE|].
    rewrite <- IH. destruct ps; reflexivity.
Qed.

Lemma ReplaceAll_absent (s : string) (old new : ascii) :
  Count s old = 0 -> ReplaceAll s old new = s.
Proof.
  induction s as [|c rest IH]; cbn [Count ReplaceAll]; [reflexivity|].
  destruct (Ascii.eqb c old); [discriminate|].
  intros H. now rewrite (IH H).
Qed.

(** The text of the error for a rejected identifier: the identifier
    between square brackets with every ['#'] turned into a space, so the
    identifier itself when it holds no ['#']. *)
Theorem Resolve_error_text (PublicKey World : Type)
    (f : Verifiable.PublicKeyFetcher PublicKey World) (id : string) (w : World) :
  Count id Verifiable.hash <> 1 ->
  exists err,
    Verifiable.Resolve (Verifiable.Build_keyResolverAdapter f) id w = (Err err, w) /\
    Error err
    = "wrong id [" ++ ReplaceAll id Verifiable.hash " " ++ "] to resolve" /\
    (Count id Verifiable.hash = 0 ->
     Error err = "wrong id [" ++ id ++ "] to resolve").
Proof.
  intros C.
  assert (L : List.length (Split id Verifiable.hash) <> 2)
    by (rewrite Split_length; lia).
  destruct (Resolve_other_parts PublicKey World f id w L) as [R _].
  eexists. split; [exact R|].
  unfold Verifiable.wrongID, Sprint_strings. cbn [Error].
  rewrite Join_Split, !append_assoc. split; [reflexivity|].
  intros Z. now rewrite (ReplaceAll_absent _ _ _ Z).
Qed.

(** On ["did:example:123"], without ['#'], and on ["did:x#a#b"], with
    two. *)
Lemma Resolve_error_text_witness :
  let f : Verifiable.PublicKeyFetcher unit unit := fun _ _ w => (Ok tt, w) in
  Count "did:x#a#b" Verifiable.hash <> 1 /\
  exists err,
    Verifiable.Resolve (Verifiable.Build_keyResolverAdapter f) "did:x#a#b" tt
    = (Err err, tt) /\
    Error err = "wrong id [did:x a b] to resolve".
Proof.
  intros f.
  assert (C : Count "did:x#a#b" Verifiable.hash <> 1) by (vm_compute; lia).
  split; [exact C|].
  destruct (Resolve_error_text unit unit f "did:x#a#b" tt C) as (err & R & M & _).
  exists err. split; [exact R|exact M].
Defined.

(** ** Further properties of [TimeWithTrailingZeroMsec] *)

Lemma keepTrailingZerosLoop_zero_fraction
    (tm : Util.TimeWithTrailingZeroMsec) (before after : string) (n : nat) :
  Count before "." = 0 ->
  Util.keepTrailingZerosLoop
    (before ++ "." ++ Util.zeros (S n) ++ "Z" ++ after) false 0 tm
  = {| Util.Time := Util.Time tm;
       Util.trailingZerosMsecCount := Z.of_nat (S n) |}.
Proof.
  intros C. rewrite keepTrailingZerosLoop_skip by exact C.
  cbn [append Util.keepTrailingZerosLoop negb Ascii.eqb Bool.eqb].
  exact (keepTrailingZerosLoop_zeros (S n) 0 after tm).
Qed.

(** What [keepTrailingZerosMsecFormat] does to its receiver.  The
    embedded time is never touched.  When the first period of the string
    is followed by one or more ['0'] and then by ['Z'], the number of
    these zeros is stored, whatever was stored before.  For every other
    string the receiver is left as it is, the number it holds
    included. *)
Theorem keepTrailingZerosMsecFormat_effect
    (tm : Util.TimeWithTrailingZeroMsec) (timeStr : string) :
  Util.Time (Util.keepTrailingZerosMsecFormat tm timeStr) = Util.Time tm /\
  (forall before n after,
      Count before "." = 0 ->
      timeStr = before ++ "." ++ Util.zeros (S n) ++ "Z" ++ after ->
      Util.trailingZerosMsecCount (Util.keepTrailingZerosMsecFormat tm timeStr)
      = Z.of_nat (S n)) /\
  (~ Util.hasZeroFractionZ timeStr ->
   Util.keepTrailingZerosMsecFormat tm timeStr = tm).
Proof.
  unfold Util.keepTrailingZerosMsecFormat. split; [|split].
  - destruct (keepTrailingZerosLoop_scan timeStr tm)
      as [U|(before & n & after & C & E & U)]; now rewrite U.
  - intros before n after C ->.
    now rewrite keepTrailingZerosLoop_zero_fraction.
  - intros NZ.
    destruct (keepTrailingZerosLoop_scan timeStr tm)
      as [U|(before & n & after & C & E & U)]; [exact U|].
    exfalso. apply NZ. now exists before, n, after.
Qed.

(** [MarshalJSON] fails exactly when the embedded time's [MarshalJSON]
    fails, and with its error.  When it succeeds and the number held is
    not negative, what it writes is the time formatted with the layout
    [GetFormat] returns, between double quotes.  With a negative
    number the two part: [GetFormat] returns [time.RFC3339Nano], and
    [MarshalJSON] formats with a layout that has a period and no
    digit. *)
Theorem MarshalJSON_uses_GetFormat (tm : Util.TimeWithTrailingZeroMsec) :
  (forall err,
      Util.MarshalJSON tm = Err err <->
      GoTime.MarshalJSON (Util.Time tm) = Err err) /\
  (forall bytes,
      Util.MarshalJSON tm = Ok bytes ->
      ((0 <= Util.trailingZerosMsecCount tm)%Z ->
       bytes = GoTime.quote
               ++ GoTime.AppendFormat (Util.Time tm) (Util.GetFormat tm)
               ++ GoTime.quote) /\
      ((Util.trailingZerosMsecCount tm < 0)%Z ->
       Util.GetFormat tm = GoTime.RFC3339Nano /\
       bytes = GoTime.quote
               ++ GoTime.AppendFormat (Util.Time tm) "2006-01-02T15:04:05.Z07:00"
               ++ GoTime.quote)).
Proof.
  unfold Util.MarshalJSON, Util.GetFormat, Util.marshalJSONWithTrailingZeroMsec,
    Util.getTrailingZeroIncludedFormat.
  destruct (GoTime.MarshalJSON (Util.Time tm)) as [timeBytes|e] eqn:M.
  - split.
    + intros err.
      destruct (Util.trailingZerosMsecCount tm); cbn; split; discriminate.
    + intros bytes. unfold GoTime.MarshalJSON in M.
      destruct (10000 <=? GoTime.Year (Util.Time tm))%N; [discriminate|].
      destruct (24 * 3600 <=? Z.abs (GoTime.ZoneOffset (Util.Time tm)))%Z;
        [discriminate|].
      injection M as <-.
      destruct (Util.trailingZerosMsecCount tm) as [|p|p];
        cbn [Z.eqb Z.ltb Z.compare]; intros B; injection B as <-;
        (split; [intros P|intros P]); try lia; try reflexivity.
      split; reflexivity.
  - split; [intros err; reflexivity|discriminate].
Qed.

Section JSONRoundTrip.

Import GoTime Util.

Lemma timestampZ_dateTime (year month day hour min sec : N) (frac : string) :
  timestampZ year month day hour min sec frac
  = dateTime year month day hour min sec ++ "." ++ frac ++ "Z".
Proof. unfold timestampZ, dateTime. now rewrite !append_assoc. Qed.

Lemma Count_dateTime_period (year month day hour min sec : N) :
  Count (dateTime year month day hour min sec) "." = 0.
Proof.
  unfold dateTime.
  repeat (rewrite Count_append, Count_fixedDigits_period;
          cbn [append Count Ascii.eqb Bool.eqb Nat.add]).
  apply Count_fixedDigits_period.
Qed.

Lemma dropClosingQuote_append (s : string) :
  dropClosingQuote (s ++ quote) = Some s.
Proof.
  induction s as [|c s IH]; [reflexivity|].
  cbn [append dropClosingQuote]. rewrite IH.
  destruct (s ++ quote) eqn:E; [|reflexivity].
  destruct s; discriminate.
Qed.

Lemma unquote_quoted (s : string) : unquote (quote ++ s ++ quote) = Some s.
Proof. cbn [quote append unquote]. apply dropClosingQuote_append. Qed.

Lemma quoted_not_null (s : string) : String.eqb (quote ++ s) "null" = false.
Proof. reflexivity. Qed.

Lemma keepTrailingZerosMsecFormat_quoted
    (year month day hour min sec : N) (n : nat) (tm : TimeWithTrailingZeroMsec) :
  keepTrailingZerosMsecFormat tm
    (quote ++ timestampZ year month day hour min sec (zeros (S n)) ++ quote)
  = {| Time := Time tm; trailingZerosMsecCount := Z.of_nat (S n) |}.
Proof.
  unfold keepTrailingZerosMsecFormat.
  replace (quote ++ timestampZ year month day hour min sec (zeros (S n)) ++ quote)
    with ((quote ++ dateTime year month day hour min sec)
          ++ "." ++ zeros (S n) ++ "Z" ++ quote)
    by (rewrite timestampZ_dateTime, !append_assoc; reflexivity).
  apply keepTrailingZerosLoop_zero_fraction.
  rewrite Count_append, Count_dateTime_period. reflexivity.
Qed.

(** Decoding and encoding again.  [UnmarshalJSON] of a quoted
    well-formed timestamp whose fraction is one to nine ['0'] followed by
    ['Z'] succeeds, whatever the receiver held, and [MarshalJSON] of the
    result gives back the bytes that were decoded. *)
Theorem UnmarshalJSON_MarshalJSON_roundtrip
    (tm0 : TimeWithTrailingZeroMsec) (year month day hour min sec : N) (n : nat) :
  validFields year month day hour min sec ->
  1 <= n <= 9 ->
  exists tm,
    Util.UnmarshalJSON tm0
      (quote ++ timestampZ year month day hour min sec (zeros n) ++ quote)
    = (None, tm) /\
    Util.MarshalJSON tm
    = Ok (quote ++ timestampZ year month day hour min sec (zeros n) ++ quote).
Proof.
  intros V [N1 N9]. destruct n as [|n]; [lia|].
  unfold Util.UnmarshalJSON, GoTime.UnmarshalJSON.
  rewrite quoted_not_null, unquote_quoted. unfold Parse.
  rewrite (parseRFC3339_timestampZ _ _ _ _ _ _ n V).
  rewrite keepTrailingZerosMsecFormat_quoted. cbn [Time].
  eexists. split; [reflexivity|].
  now apply MarshalJSON_zero_fraction.
Qed.

(** What [UnmarshalJSON] leaves in place.  [null] changes nothing and
    is no error.  The number of zeros held by the receiver is never
    reset: it is still there after an error, and after decoding a
    timestamp that has no fraction of zeros closed by ['Z']. *)
Theorem UnmarshalJSON_keeps_count (tm : TimeWithTrailingZeroMsec) (data : string) :
  Util.UnmarshalJSON tm "null" = (None, tm) /\
  (forall err tm',
      Util.UnmarshalJSON tm data = (Some err, tm') ->
      trailingZerosMsecCount tm' = trailingZerosMsecCount tm) /\
  (forall tm',
      Util.UnmarshalJSON tm data = (None, tm') ->
      ~ hasZeroFractionZ data ->
      trailingZerosMsecCount tm' = trailingZerosMsecCount tm).
Proof.
  split; [reflexivity|].
  unfold Util.UnmarshalJSON.
  destruct (String.eqb data "null").
  - split; [discriminate|]. intros tm' E _. now injection E as <-.
  - destruct (GoTime.UnmarshalJSON (Time tm) data) as [[err0|] t]; split.
    + intros err tm' E. now injection E as _ <-.
    + discriminate.
    + discriminate.
    + intros tm' E NZ. injection E as <-.
      destruct (keepTrailingZerosMsecFormat_effect
                  {| Time := t; trailingZerosMsecCount := trailingZerosMsecCount tm |}
                  data) as (_ & _ & K).
      now rewrite (K NZ).
Qed.

(** The layout after parsing.  A well-formed timestamp whose fraction
    is any number of ['0'], one or more, followed by ['Z'] is parsed into
    a value whose [GetFormat] is the layout with the same number of
    zeros; the number is not bounded.  A parsed string without such a
    fraction gives the layout [time.RFC3339Nano]. *)
Theorem GetFormat_after_parse :
  (forall (year month day hour min sec : N) (n : nat),
      validFields year month day hour min sec ->
      1 <= n ->
      exists tm,
        ParseTimeWithTrailingZeroMsec
          (timestampZ year month day hour min sec (zeros n)) = Ok tm /\
        GetFormat tm = "2006-01-02T15:04:05." ++ zeros n ++ "Z07:00") /\
  (forall (timeStr : string) (tm : TimeWithTrailingZeroMsec),
      ParseTimeWithTrailingZeroMsec timeStr = Ok tm ->
      ~ hasZeroFractionZ timeStr ->
      GetFormat tm = RFC3339Nano).
Proof.
  split.
  - intros year month day hour min sec n V N1. destruct n as [|n]; [lia|].
    unfold ParseTimeWithTrailingZeroMsec, Parse.
    rewrite (parseRFC3339_timestampZ _ _ _ _ _ _ n V).
    rewrite keepTrailingZerosMsecFormat_timestampZ.
    eexists. split; [reflexivity|].
    unfold GetFormat, getTrailingZeroIncludedFormat.
    cbn [trailingZerosMsecCount].
    replace (0 <? Z.of_nat (S n))%Z with true by (symmetry; apply Z.ltb_lt; lia).
    now rewrite Nat2Z.id, addZeros_zeros, append_assoc.
  - intros timeStr tm P NZ. unfold ParseTimeWithTrailingZeroMsec in P.
    destruct (Parse timeStr) as [t|e]; [|discriminate]. injection P as <-.
    destruct (keepTrailingZerosMsecFormat_effect
                {| Time := t; trailingZerosMsecCount := 0 |} timeStr)
      as (_ & _ & K).
    now rewrite (K NZ).
Qed.

End JSONRoundTrip.

Section FractionWidth.

Import GoTime Util.

Lemma appendNano_take (nanosec : N) (n : nat) :
  (nanosec < 1000000000)%N ->
  appendNano nanosec (S n) false = "." ++ take (S n) (fixedDigits 9 nanosec).
Proof.
  intros H. unfold appendNano. cbn [andb].
  rewrite (appendInt_fixed nanosec 9) by (try exact H; lia).
  cbn [fixedDigits append].
  destruct (Nat.ltb_spec (S n) 9) as [L|G]; cbn [take]; [reflexivity|].
  do 8 (destruct n as [|n]; [lia|]). cbn [take].
  now destruct n.
Qed.

(** What [MarshalJSON] writes when a number of digits is kept.  For a
    time within the ranges of [inRange] and a positive number [n], it is
    the date and the time of day, a period, the first [n] digits of the
    nine digits of the nanoseconds, and the zone, between double quotes:
    the fraction is cut, not rounded, and no more than nine digits are
    written. *)
Theorem MarshalJSON_fraction_width (t : GoTime.Time) (n : Z) :
  inRange t ->
  (1 <= n)%Z ->
  Util.MarshalJSON (NewTimeWithTrailingZeroMsec t n)
  = Ok (quote
        ++ dateTime (Year t) (Month t) (Day t) (Hour t) (Minute t) (Second t)
        ++ "." ++ take (Z.to_nat n) (fixedDigits 9 (Nanosecond t))
        ++ appendZone (ZoneOffset t) ++ quote).
Proof.
  intros [(Y & Mo & D & H & Mi & Se & Ns) Zo] N1.
  unfold Util.MarshalJSON, GoTime.MarshalJSON, NewTimeWithTrailingZeroMsec.
  cbn [Time trailingZerosMsecCount].
  replace (10000 <=? Year t)%N with false by (symmetry; apply N.leb_gt; exact Y).
  replace (24 * 3600 <=? Z.abs (ZoneOffset t))%Z with false
    by (symmetry; apply Z.leb_gt; exact Zo).
  replace (n =? 0)%Z with false by (symmetry; apply Z.eqb_neq; lia).
  unfold marshalJSONWithTrailingZeroMsec, getTrailingZeroIncludedFormat.
  cbn [Time trailingZerosMsecCount].
  destruct (Z.to_nat n) as [|m] eqn:E; [lia|].
  rewrite addZeros_zeros, append_assoc, AppendFormat_zero_layout.
  rewrite (appendInt_fixed (Year t) 4), !(appendInt_fixed _ 2)
    by (try (change (10 ^ N.of_nat 4)%N with 10000%N);
        try (change (10 ^ N.of_nat 2)%N with 100%N); lia).
  rewrite appendNano_take by exact Ns.
  unfold dateTime. now rewrite !append_assoc.
Qed.

End FractionWidth.

(** ** Checking a linked data proof *)

Section CheckProofFacts.

Import LinkedDataProof.

Variables PublicKey World JSONObject : Type.
Variable documentVerifier_Verify :
  (string -> World -> result PublicKey * World) ->
  VerifierSignatureSuite PublicKey JSONObject -> string -> World ->
  option error * World.

(** [checkLinkedDataProof] hands the verifier the adapter's [Resolve]
    over the given fetcher and nothing else of its own.  It succeeds
    exactly when the verifier does; an error of the verifier comes back
    wrapped behind "check linked data proof: ", with the cause and its
    message kept; the world is left as the verifier left it. *)
Theorem checkLinkedDataProof_errors (jsonldBytes : string)
    (suite : VerifierSignatureSuite PublicKey JSONObject)
    (pubKeyFetcher : Verifiable.PublicKeyFetcher PublicKey World) (w : World) :
  let verified :=
    documentVerifier_Verify
      (Verifiable.Resolve (Verifiable.Build_keyResolverAdapter pubKeyFetcher))
      suite jsonldBytes w in
  let checked :=
    checkLinkedDataProof PublicKey World JSONObject documentVerifier_Verify
      jsonldBytes suite pubKeyFetcher w in
  snd checked = snd verified /\
  (fst checked = None <-> fst verified = None) /\
  (forall cause,
      fst verified = Some cause ->
      exists e,
        fst checked = Some e /\
        Unwrap e = Some cause /\
        Error e = "check linked data proof: " ++ Error cause /\
        Contains (Error e) (Error cause) = true).
Proof.
  intros verified checked. subst verified checked. unfold checkLinkedDataProof.
  destruct (documentVerifier_Verify _ suite jsonldBytes w) as [[cause0|] w'];
    cbn [fst snd].
  - split; [reflexivity|]. split; [split; discriminate|].
    intros cause C. injection C as <-.
    eexists. split; [reflexivity|]. cbn [Errorf_w Unwrap Error].
    split; [reflexivity|]. split; [reflexivity|].
    rewrite <- (append_empty_r (Error cause0)) at 1. apply Contains_app.
  - split; [reflexivity|]. split; [split; reflexivity|discriminate].
Qed.

End CheckProofFacts.

(** ** The wrapper next to [time.Time] *)

Section Transparency.

Import GoTime Util.

Lemma hasZeroFractionZ_period (s : string) :
  hasZeroFractionZ s -> Count s "." <> 0.
Proof.
  intros (before & n & after & _ & ->).
  rewrite Count_append. cbn [append Count Ascii.eqb Bool.eqb]. lia.
Qed.

(** A value made by [NewTime] behaves as its [time.Time] on every input
    that has no fraction of zeros closed by ['Z']: [UnmarshalJSON]
    returns the error of [Time.UnmarshalJSON] and leaves the time it
    leaves, and [MarshalJSON] then writes what [Time.MarshalJSON]
    writes. *)
Theorem NewTime_transparent (t0 : GoTime.Time) (data : string) :
  ~ hasZeroFractionZ data ->
  exists tm,
    Util.UnmarshalJSON (NewTime t0) data
    = (fst (GoTime.UnmarshalJSON t0 data), tm) /\
    Time tm = snd (GoTime.UnmarshalJSON t0 data) /\
    Util.MarshalJSON tm
    = GoTime.MarshalJSON (snd (GoTime.UnmarshalJSON t0 data)).
Proof.
  intros NZ.
  assert (M : forall t, Util.MarshalJSON {| Time := t; trailingZerosMsecCount := 0 |}
                        = GoTime.MarshalJSON t).
  { intros t. unfold Util.MarshalJSON. cbn. now destruct (GoTime.MarshalJSON t). }
  unfold Util.UnmarshalJSON, NewTime. cbn [Time trailingZerosMsecCount].
  destruct (String.eqb data "null") eqn:E.
  - apply String.eqb_eq in E. subst data. cbn [GoTime.UnmarshalJSON String.eqb].
    eexists. split; [reflexivity|]. split; [reflexivity|]. apply M.
  - destruct (GoTime.UnmarshalJSON t0 data) as [[err|] t]; cbn [fst snd].
    + eexists. split; [reflexivity|]. split; [reflexivity|]. apply M.
    + destruct (keepTrailingZerosMsecFormat_effect
                  {| Time := t; trailingZerosMsecCount := 0 |} data)
        as (_ & _ & K).
      rewrite (K NZ).
      eexists. split; [reflexivity|]. split; [reflexivity|]. apply M.
Qed.

End Transparency.

(** The round trip on the example of the type's documentation, decoded
    into a value that held another time and another number of zeros. *)
Lemma UnmarshalJSON_MarshalJSON_roundtrip_witness :
  exists tm,
    Util.UnmarshalJSON
      (Util.NewTimeWithTrailingZeroMsec GoTime.zeroTime 5)
      (GoTime.quote ++ "2018-03-15T00:00:00.000Z" ++ GoTime.quote)
    = (None, tm) /\
    Util.MarshalJSON tm
    = Ok (GoTime.quote ++ "2018-03-15T00:00:00.000Z" ++ GoTime.quote).
Proof.
  apply (UnmarshalJSON_MarshalJSON_roundtrip
           (Util.NewTimeWithTrailingZeroMsec GoTime.zeroTime 5)
           2018%N 3%N 15%N 0%N 0%N 0%N 3).
  - unfold Util.validFields. vm_compute. repeat split; discriminate.
  - lia.
Defined.

(** A number of zeros that outlives its timestamp: a value that holds
    three zeros decodes a timestamp without fraction, keeps the three,
    and writes them. *)
Lemma UnmarshalJSON_keeps_count_witness :
  let data := GoTime.quote ++ "2018-03-15T00:00:01Z" ++ GoTime.quote in
  exists tm,
    Util.UnmarshalJSON (Util.NewTimeWithTrailingZeroMsec GoTime.zeroTime 3) data
    = (None, tm) /\
    Util.trailingZerosMsecCount tm = 3%Z /\
    Util.MarshalJSON tm
    = Ok (GoTime.quote ++ "2018-03-15T00:00:01.000Z" ++ GoTime.quote).
Proof.
  intros data. eexists. split; [vm_compute; reflexivity|].
  split; [|vm_compute; reflexivity].
  refine (proj2 (proj2 (UnmarshalJSON_keeps_count
                          (Util.NewTimeWithTrailingZeroMsec GoTime.zeroTime 3)
                          data)) _ _ _).
  - vm_compute. reflexivity.
  - intros Z. apply hasZeroFractionZ_period in Z. now apply Z.
Defined.

(** Milliseconds of a time that has nanoseconds: three digits are kept,
    the rest is cut. *)
Lemma MarshalJSON_fraction_width_witness :
  let t := {| GoTime.Year := 2018; GoTime.Month := 3; GoTime.Day := 15;
              GoTime.Hour := 10; GoTime.Minute := 20; GoTime.Second := 30;
              GoTime.Nanosecond := 123987654; GoTime.ZoneOffset := 0 |} in
  GoTime.inRange t /\
  Util.MarshalJSON (Util.NewTimeWithTrailingZeroMsec t 3)
  = Ok (GoTime.quote ++ "2018-03-15T10:20:30.123Z" ++ GoTime.quote).
Proof.
  intros t.
  assert (R : GoTime.inRange t) by (vm_compute; repeat split; discriminate).
  split; [exact R|].
  exact (MarshalJSON_fraction_width t 3 R ltac:(lia)).
Defined.

(** On a timestamp with half a second, decoded into a value made by
    [NewTime]. *)
Lemma NewTime_transparent_witness :
  let data := GoTime.quote ++ "2018-03-15T00:00:01.5Z" ++ GoTime.quote in
  ~ Util.hasZeroFractionZ data /\
  exists tm,
    Util.UnmarshalJSON (Util.NewTime GoTime.zeroTime) data = (None, tm) /\
    Util.MarshalJSON tm = Ok data.
Proof.
  intros data.
  assert (NZ : ~ Util.hasZeroFractionZ data).
  { intros (before & n & after & C & E).
    destruct before as [|c0 before]; [discriminate|].
    do 20 (injection E as <- E; destruct before as [|? before]; [discriminate|]).
    simpl in E. injection E as <- E. discriminate. }
  split; [exact NZ|].
  destruct (NewTime_transparent GoTime.zeroTime data NZ) as (tm & U & _ & M).
  exists tm. split; [exact U|exact M].
Defined.
